(** * The review screens of the food-review mobile client

    A shallow embedding of the two screens of the client:

    - [CreateReview] (mobile/app/reviews/create.tsx): the review form and its
      [handleSubmit];
    - [HomeTab] (the feed tab): [fetchFriendsReviews], [onRefresh] and
      [formatDate].

    JavaScript strings are sequences of UTF-16 code units; the screens' state
    is a record threaded through a small state-and-trace monad whose
    completions follow JavaScript's (normal, [return], [throw]).  What the
    screens observe of the outside (the session lookup, [fetch], the clock)
    is a [World]; what the engine leaves to the implementation (error
    texts, the localized date) is a [Platform]. *)

From Stdlib Require Import List ZArith NArith Bool Ascii String Lia.
From Stdlib Require Import DecimalString.
Import ListNotations.

Set Warnings "-register-all".

(* ================================================================== *)
(** * JavaScript strings, numbers in templates, and JSON *)
(* ================================================================== *)

Module JS.

(** A string is its sequence of UTF-16 code units. *)
Definition codeunit := N.
Definition jsstring := list codeunit.

(** A literal of the source, all of whose characters are ASCII. *)
Definition lit (s : string) : jsstring :=
  map N_of_ascii (list_ascii_of_string s).

Definition codeunit_eqb : codeunit -> codeunit -> bool := N.eqb.

(** [a === b] on strings. *)
Fixpoint string_eqb (a b : jsstring) : bool :=
  match a, b with
  | [], [] => true
  | x :: a', y :: b' => codeunit_eqb x y && string_eqb a' b'
  | _, _ => false
  end.

(** ECMAScript's WhiteSpace and LineTerminator code points, the ones
    [String.prototype.trim] strips: TAB, LF, VT, FF, CR, SP, NBSP, U+1680,
    U+2000..U+200A, LS, PS, U+202F, U+205F, U+3000 and U+FEFF. *)
Definition isWhiteSpace (c : codeunit) : bool :=
  match c with
  | 9 | 10 | 11 | 12 | 13 | 32 | 160 | 5760 => true
  | 8232 | 8233 | 8239 | 8287 | 12288 | 65279 => true
  | _ => (8192 <=? c) && (c <=? 8202)
  end%N.

Fixpoint trimStart (s : jsstring) : jsstring :=
  match s with
  | [] => []
  | c :: r => if isWhiteSpace c then trimStart r else s
  end.

Definition trimEnd (s : jsstring) : jsstring := rev (trimStart (rev s)).

(** [s.trim()] *)
Definition trim (s : jsstring) : jsstring := trimEnd (trimStart s).

(** Truthiness of a string: the empty string is the only falsy one. *)
Definition string_truthy (s : jsstring) : bool :=
  match s with [] => false | _ :: _ => true end.

(** An integer-valued number inside a template literal: its decimal digits,
    with a leading minus sign when negative. *)
Definition Number_toString_int (z : Z) : jsstring :=
  lit (NilZero.string_of_int (Z.to_int z)).

(** A thrown value: an [Error] object (of any subclass) with its [message],
    or a value that is not an instance of [Error]. *)
Inductive thrown : Type :=
| JSError (message : jsstring)
| NonError.

End JS.

Module JSON.
Import JS.

(** The values [JSON.parse] produces.  A number keeps the exact decimal it
    was written as, [(-1)^neg * mant * 10^exp10]; an object keeps its
    members in source order, duplicates included. *)
Inductive value : Type :=
| JNull
| JBool (b : bool)
| JNumber (neg : bool) (mant : N) (exp10 : Z)
| JString (s : jsstring)
| JArray (elements : list value)
| JObject (members : list (jsstring * value)).

(** The outcome of a parsing function: a result with the unread input, a
    syntax error, or recursion budget exhausted (which [fuel_for] rules
    out, see [JSONFacts.parse_value_fuel]). *)
Inductive parsed (A : Type) : Type :=
| Ok (a : A) (rest : jsstring)
| SyntaxError
| OutOfFuel.
Arguments Ok {A} a rest.
Arguments SyntaxError {A}.
Arguments OutOfFuel {A}.

Definition parsed_map {A B} (f : A -> B) (p : parsed A) : parsed B :=
  match p with
  | Ok a rest => Ok (f a) rest
  | SyntaxError => SyntaxError
  | OutOfFuel => OutOfFuel
  end.

(** JSON white space: TAB, LF, CR, SP. *)
Definition isJSONWhiteSpace (c : codeunit) : bool :=
  match c with 9 | 10 | 13 | 32 => true | _ => false end%N.

Fixpoint skip_ws (input : jsstring) : jsstring :=
  match input with
  | [] => []
  | c :: r => if isJSONWhiteSpace c then skip_ws r else input
  end.

Definition is_digit (c : codeunit) : bool := ((48 <=? c) && (c <=? 57))%N.

Definition hex_digit (c : codeunit) : option N :=
  if is_digit c then Some (c - 48)%N
  else if ((97 <=? c) && (c <=? 102))%N then Some (c - 87)%N
  else if ((65 <=? c) && (c <=? 70))%N then Some (c - 55)%N
  else None.

(** The character a one-letter escape stands for. *)
Definition escape (c : codeunit) : option codeunit :=
  match c with
  | 34 => Some 34 | 92 => Some 92 | 47 => Some 47
  | 98 => Some 8 | 102 => Some 12 | 110 => Some 10
  | 114 => Some 13 | 116 => Some 9
  | _ => None
  end%N.

(** The characters of a string literal, read from just after its opening
    quote up to and including its closing quote. *)
Fixpoint string_chars (input : jsstring) : parsed jsstring :=
  match input with
  | [] => SyntaxError
  | c :: r =>
      if (c =? 34)%N then Ok [] r
      else if (c =? 92)%N then
        match r with
        | [] => SyntaxError
        | e :: r' =>
            if (e =? 117)%N then
              match r' with
              | h1 :: h2 :: h3 :: h4 :: r'' =>
                  match hex_digit h1, hex_digit h2, hex_digit h3, hex_digit h4 with
                  | Some a, Some b, Some c', Some d =>
                      parsed_map (cons (((a * 16 + b) * 16 + c') * 16 + d)%N)
                                 (string_chars r'')
                  | _, _, _, _ => SyntaxError
                  end
              | _ => SyntaxError
              end
            else
              match escape e with
              | Some x => parsed_map (cons x) (string_chars r')
              | None => SyntaxError
              end
        end
      else if (c <? 32)%N then SyntaxError
      else parsed_map (cons c) (string_chars r)
  end.

Fixpoint take_digits (input : jsstring) : list N * jsstring :=
  match input with
  | [] => ([], [])
  | c :: r =>
      if is_digit c
      then let (ds, rest) := take_digits r in ((c - 48)%N :: ds, rest)
      else ([], input)
  end.

Definition digits_value (ds : list N) : N :=
  fold_left (fun acc d => (acc * 10 + d)%N) ds 0%N.

(** A number literal: an optional minus sign; an integer part, which is a
    single zero or starts with a non-zero digit; an optional fraction (a dot
    and at least one digit); an optional exponent (e or E, an optional sign,
    at least one digit). *)
Definition number (input : jsstring) : parsed value :=
  let (neg, input1) :=
    match input with
    | c :: r => if (c =? 45)%N then (true, r) else (false, input)
    | [] => (false, input)
    end in
  match take_digits input1 with
  | ([], _) => SyntaxError
  | (d :: ds, rest) =>
      if (d =? 0)%N && negb (Nat.eqb (List.length ds) 0) then SyntaxError
      else
        let after_fraction :=
          match rest with
          | c :: r =>
              if (c =? 46)%N then
                match take_digits r with
                | ([], _) => None
                | (fs, rest') => Some (fs, rest')
                end
              else Some ([], rest)
          | [] => Some ([], rest)
          end in
        match after_fraction with
        | None => SyntaxError
        | Some (fs, rest1) =>
            let mant := digits_value ((d :: ds) ++ fs) in
            let shift := Z.of_nat (List.length fs) in
            match rest1 with
            | c :: r =>
                if ((c =? 101) || (c =? 69))%N then
                  let (eneg, r1) :=
                    match r with
                    | s :: r' =>
                        if (s =? 45)%N then (true, r')
                        else if (s =? 43)%N then (false, r')
                        else (false, r)
                    | [] => (false, r)
                    end in
                  match take_digits r1 with
                  | ([], _) => SyntaxError
                  | (es, rest2) =>
                      let e := Z.of_N (digits_value es) in
                      Ok (JNumber neg mant ((if eneg then - e else e) - shift)%Z) rest2
                  end
                else Ok (JNumber neg mant (- shift)%Z) rest1
            | [] => Ok (JNumber neg mant (- shift)%Z) rest1
            end
        end
  end.

(** The three literal names. *)
Definition literal_name (input : jsstring) : parsed value :=
  match input with
  | 116 :: 114 :: 117 :: 101 :: r => Ok (JBool true) r
  | 102 :: 97 :: 108 :: 115 :: 101 :: r => Ok (JBool false) r
  | 110 :: 117 :: 108 :: 108 :: r => Ok JNull r
  | _ => SyntaxError
  end%N.

(** Recursive descent over the JSON grammar.  [parse_elements] starts at
    an element and reads through the closing bracket; [parse_members]
    starts at a member and reads through the closing brace. *)
Fixpoint parse_value (fuel : nat) (input : jsstring) : parsed value :=
  match fuel with
  | O => OutOfFuel
  | S f =>
      match skip_ws input with
      | [] => SyntaxError
      | c :: r =>
          if (c =? 123)%N then
            match skip_ws r with
            | [] => SyntaxError
            | c' :: r' =>
                if (c' =? 125)%N then Ok (JObject []) r'
                else parsed_map JObject (parse_members f (c' :: r'))
            end
          else if (c =? 91)%N then
            match skip_ws r with
            | [] => SyntaxError
            | c' :: r' =>
                if (c' =? 93)%N then Ok (JArray []) r'
                else parsed_map JArray (parse_elements f (c' :: r'))
            end
          else if (c =? 34)%N then parsed_map JString (string_chars r)
          else if (c =? 45)%N || is_digit c then number (c :: r)
          else literal_name (c :: r)
      end
  end
with parse_elements (fuel : nat) (input : jsstring) : parsed (list value) :=
  match fuel with
  | O => OutOfFuel
  | S f =>
      match parse_value f input with
      | Ok v rest =>
          match skip_ws rest with
          | [] => SyntaxError
          | c :: r =>
              if (c =? 44)%N then parsed_map (cons v) (parse_elements f r)
              else if (c =? 93)%N then Ok [v] r
              else SyntaxError
          end
      | SyntaxError => SyntaxError
      | OutOfFuel => OutOfFuel
      end
  end
with parse_members (fuel : nat) (input : jsstring)
  : parsed (list (jsstring * value)) :=
  match fuel with
  | O => OutOfFuel
  | S f =>
      match skip_ws input with
      | [] => SyntaxError
      | q :: r =>
          if (q =? 34)%N then
            match string_chars r with
            | Ok k rest =>
                match skip_ws rest with
                | [] => SyntaxError
                | c :: r2 =>
                    if (c =? 58)%N then
                      match parse_value f r2 with
                      | Ok v rest2 =>
                          match skip_ws rest2 with
                          | [] => SyntaxError
                          | c2 :: r3 =>
                              if (c2 =? 44)%N
                              then parsed_map (cons (k, v)) (parse_members f r3)
                              else if (c2 =? 125)%N then Ok [(k, v)] r3
                              else SyntaxError
                          end
                      | SyntaxError => SyntaxError
                      | OutOfFuel => OutOfFuel
                      end
                    else SyntaxError
                end
            | SyntaxError => SyntaxError
            | OutOfFuel => OutOfFuel
            end
          else SyntaxError
      end
  end.

Definition fuel_for (text : jsstring) : nat := 2 * List.length text + 3.

(** [JSON.parse(text)]: [None] when it throws a [SyntaxError]. *)
Definition parse (text : jsstring) : option value :=
  match parse_value (fuel_for text) text with
  | Ok v rest => match skip_ws rest with [] => Some v | _ :: _ => None end
  | SyntaxError => None
  | OutOfFuel => None
  end.

(** A parsed number converts to the double nearest to its decimal; that
    double is zero exactly when the decimal is zero or at most [2^-1075],
    half the least positive double (the tie goes to the even one, zero). *)
Definition number_is_zero (mant : N) (exp10 : Z) : bool :=
  (mant =? 0)%N
  || ((exp10 <? 0)%Z && (Z.of_N mant * 2 ^ 1075 <=? 10 ^ (- exp10))%Z).

(** ToBoolean on a parsed value. *)
Definition truthy (v : value) : bool :=
  match v with
  | JNull => false
  | JBool b => b
  | JNumber _ mant exp10 => negb (number_is_zero mant exp10)
  | JString s => string_truthy s
  | JArray _ => true
  | JObject _ => true
  end.

(** The own property [key] of a parsed object: with a repeated key the
    last member stands. *)
Fixpoint get_member (key : jsstring) (members : list (jsstring * value))
  : option value :=
  match members with
  | [] => None
  | (k, v) :: r =>
      match get_member key r with
      | Some v' => Some v'
      | None => if string_eqb k key then Some v else None
      end
  end.

End JSON.

(* ================================================================== *)
(** * What the screens exchange with the outside *)
(* ================================================================== *)

Module API.
Import JS JSON.

(** A number obtained from a text by [parseFloat]; it is only carried
    into the payload, never computed with. *)
Inductive jsnumber : Type :=
| parseFloat (text : jsstring).

(** The object literal [reviewData] of [handleSubmit]; an absent field is a
    field whose value is [undefined]. *)
Record ReviewData : Type := {
  rd_provider : option jsstring;
  rd_providerId : option jsstring;
  rd_name : option jsstring;
  rd_address : option jsstring;
  rd_lat : option jsnumber;
  rd_lng : option jsnumber;
  rd_rating : Z;
  rd_text : jsstring;
  rd_dishes : list jsstring
}.

(** The arguments of one [fetch] call; [req_body] is the value handed to
    [JSON.stringify], when there is a body. *)
Record Request : Type := {
  req_url : jsstring;
  req_method : jsstring;
  req_headers : list (jsstring * jsstring);
  req_body : option ReviewData
}.

(** A response as delivered: status line and body text. *)
Record Response : Type := {
  status : Z;
  statusText : jsstring;
  bodyText : jsstring
}.

(** [response.ok]: the status is in the range 200..299. *)
Definition ok (r : Response) : bool :=
  ((200 <=? status r) && (status r <=? 299))%Z.

Record Session : Type := { access_token : jsstring }.
Record AuthError : Type := { auth_error_message : jsstring }.

(** What [supabase.auth.getSession()] resolves to:
    [{ data: { session }, error }]. *)
Record SessionResult : Type := {
  data_session : option Session;
  error : option AuthError
}.

(** The outside as one run of a handler meets it: a promise either rejects
    with a thrown value or resolves. *)
Record World : Type := {
  auth_getSession : thrown + SessionResult;
  fetch : Request -> thrown + Response;
  Date_now : Z
}.

(** What ECMAScript leaves to the engine and the locale. *)
Record Platform : Type := {
  (** the message of the TypeError raised by reading the named property
      of [null] *)
  TypeError_property_of_null : jsstring -> jsstring;
  (** the message of the SyntaxError raised by parsing the text as JSON *)
  SyntaxError_message : jsstring -> jsstring;
  (** the message of the error [throw new Error(v)] raises for a value [v]
      that is not a string: ToString of [v], or the text of the TypeError
      that ToString raises *)
  Error_message_of : value -> jsstring;
  (** the time value of [new Date(text)], [None] for an invalid date *)
  Date_parse : jsstring -> option Z;
  (** [toLocaleDateString()] of a valid date, by its time value *)
  toLocaleDateString : Z -> jsstring
}.

Inductive navigation : Type :=
| router_back.

Record AlertButton : Type := {
  button_text : jsstring;
  onPress : list navigation
}.

(** What a handler does that is observable outside the component. *)
Inductive event : Type :=
| Alert_alert (title message : jsstring) (buttons : list AlertButton)
| getSession_call
| fetch_call (req : Request)
| console_log (logged : list jsstring)
| console_error (label : jsstring) (e : thrown).

End API.

(* ================================================================== *)
(** * Handlers: state, trace and completions *)
(* ================================================================== *)

Module Handler.
Import JS JSON API.

(** How a block of statements completes. *)
Inductive completion (A : Type) : Type :=
| Normal (a : A)
| Return
| Throw (e : thrown).
Arguments Normal {A} a.
Arguments Return {A}.
Arguments Throw {A} e.

Section WithState.
Variable S : Type.

(** A computation over the component state [S]: its completion, the state
    it leaves and the events it issued, in order. *)
Definition M (A : Type) : Type := S -> completion A * S * list event.

Definition ret {A} (a : A) : M A := fun s => (Normal a, s, []).

Definition bind {A B} (m : M A) (k : A -> M B) : M B := fun s =>
  match m s with
  | (Normal a, s1, t1) =>
      match k a s1 with (c, s2, t2) => (c, s2, t1 ++ t2) end
  | (Return, s1, t1) => (Return, s1, t1)
  | (Throw e, s1, t1) => (Throw e, s1, t1)
  end.

Definition get : M S := fun s => (Normal s, s, []).
Definition modify (f : S -> S) : M unit := fun s => (Normal tt, f s, []).
Definition emit (e : event) : M unit := fun s => (Normal tt, s, [e]).
Definition throw {A} (e : thrown) : M A := fun s => (Throw e, s, []).
Definition return_ {A} : M A := fun s => (Return, s, []).

(** Awaiting a promise: its value, or its rejection thrown. *)
Definition await {A} (p : thrown + A) : M A :=
  match p with
  | inl e => throw e
  | inr a => ret a
  end.

(** [try { body } catch (e) { handler e }] *)
Definition try_catch {A} (body : M A) (handler : thrown -> M A) : M A :=
  fun s =>
    match body s with
    | (Throw e, s1, t1) =>
        match handler e s1 with (c, s2, t2) => (c, s2, t1 ++ t2) end
    | r => r
    end.

(** [try { body } finally { fin }]: [fin] runs however [body] completes,
    and the completion of [body] stands unless [fin] completes abruptly. *)
Definition try_finally {A} (body : M A) (fin : M unit) : M A :=
  fun s =>
    match body s with
    | (c, s1, t1) =>
        match fin s1 with
        | (Normal _, s2, t2) => (c, s2, t1 ++ t2)
        | (Return, s2, t2) => (Return, s2, t1 ++ t2)
        | (Throw e, s2, t2) => (Throw e, s2, t1 ++ t2)
        end
    end.

(** [try { body } catch (e) { handler e } finally { fin }] *)
Definition try_catch_finally {A}
  (body : M A) (handler : thrown -> M A) (fin : M unit) : M A :=
  try_finally (try_catch body handler) fin.

End WithState.

Arguments ret {S A} a.
Arguments bind {S A B} m k.
Arguments get {S}.
Arguments modify {S} f.
Arguments emit {S} e.
Arguments throw {S A} e.
Arguments return_ {S A}.
Arguments await {S A} p.
Arguments try_catch {S A} body handler.
Arguments try_finally {S A} body fin.
Arguments try_catch_finally {S A} body handler fin.

(** The three components of a finished run. *)
Definition completion_of {S A} (r : completion A * S * list event)
  : completion A := fst (fst r).
Definition state_of {S A} (r : completion A * S * list event) : S :=
  snd (fst r).
Definition trace_of {S A} (r : completion A * S * list event)
  : list event := snd r.

Declare Scope handler_scope.
Delimit Scope handler_scope with handler.
Notation "x <- m ;; k" := (bind m (fun x => k))
  (at level 61, m at next level, right associativity) : handler_scope.
Notation "m ;; k" := (bind m (fun _ => k))
  (at level 61, right associativity) : handler_scope.

Section WithWorld.
Variable pf : Platform.
Variable w : World.
Variable S : Type.

Local Open Scope handler_scope.

(** [await supabase.auth.getSession()] *)
Definition await_getSession : M S SessionResult :=
  emit getSession_call ;; await (auth_getSession w).

(** [await fetch(...)] *)
Definition await_fetch (req : Request) : M S Response :=
  emit (fetch_call req) ;; await (fetch w req).

(** [await response.text()] *)
Definition await_text (r : Response) : M S jsstring := ret (bodyText r).

(** [JSON.parse(text)] *)
Definition JSON_parse (text : jsstring) : M S value :=
  match parse text with
  | Some v => ret v
  | None => throw (JSError (SyntaxError_message pf text))
  end.

(** [await response.json()] *)
Definition await_json (r : Response) : M S value := JSON_parse (bodyText r).

(** [v.message]: [None] is [undefined].  Reading a property of [null]
    throws; a boolean, number, string or array has no such property. *)
Definition get_message (v : value) : M S (option value) :=
  match v with
  | JNull => throw (JSError (TypeError_property_of_null pf (lit "message")))
  | JObject members => ret (get_member (lit "message") members)
  | _ => ret None
  end.

(** [throw new Error(v)] *)
Definition throw_new_Error {A} (v : value) : M S A :=
  match v with
  | JString s => throw (JSError s)
  | _ => throw (JSError (Error_message_of pf v))
  end.

End WithWorld.

(** The user dismisses an alert by one of its buttons (a single default
    button without a handler when the call lists none): the navigation
    signals the press of button number [i] issues. *)
Definition press_button (e : event) (i : nat) : list navigation :=
  match e with
  | Alert_alert _ _ buttons =>
      match nth_error buttons i with
      | Some b => onPress b
      | None => []
      end
  | _ => []
  end.

(** The navigation signals of a run whose alerts are each dismissed by
    their first button. *)
Definition navigation_signals (trace : list event) : list navigation :=
  flat_map (fun e => press_button e 0) trace.

(** The calls that leave the device: session lookups and requests. *)
Definition is_network_call (e : event) : bool :=
  match e with
  | getSession_call => true
  | fetch_call _ => true
  | _ => false
  end.

Definition is_fetch_call (e : event) : bool :=
  match e with
  | fetch_call _ => true
  | _ => false
  end.

(** The alerts of a run, as (title, message). *)
Definition alerts (trace : list event) : list (jsstring * jsstring) :=
  flat_map (fun e =>
    match e with
    | Alert_alert title message _ => [(title, message)]
    | _ => []
    end) trace.

(** The payloads of the requests of a run. *)
Definition payloads (trace : list event) : list ReviewData :=
  flat_map (fun e =>
    match e with
    | fetch_call req =>
        match req_body req with Some d => [d] | None => [] end
    | _ => []
    end) trace.

End Handler.

(* ================================================================== *)
(** * The review form (mobile/app/reviews/create.tsx) *)
(* ================================================================== *)

Module CreateReview.
Import JS JSON API Handler.
Local Open Scope handler_scope.

(** The route parameters read through [useLocalSearchParams]. *)
Record Params : Type := {
  name : option jsstring;
  address : option jsstring;
  provider : option jsstring;
  providerId : option jsstring;
  lat : option jsstring;
  lng : option jsstring
}.

(** The three [useState] cells of the component. *)
Record State : Type := {
  dishes : list jsstring;
  rating : Z;
  isSubmitting : bool
}.

Definition initial : State :=
  {| dishes := [[]]; rating := 0; isSubmitting := false |}.

Definition setDishes (f : list jsstring -> list jsstring) : M State unit :=
  modify (fun s =>
    {| dishes := f (dishes s); rating := rating s;
       isSubmitting := isSubmitting s |}).

Definition setRating (r : Z) : M State unit :=
  modify (fun s =>
    {| dishes := dishes s; rating := r; isSubmitting := isSubmitting s |}).

Definition setIsSubmitting (b : bool) : M State unit :=
  modify (fun s =>
    {| dishes := dishes s; rating := rating s; isSubmitting := b |}).

(** [prev.map((dish, i) => f dish i)] and [prev.filter((_, i) => p i)],
    written for an array whose first index is [i]. *)
Fixpoint mapi_from (i : nat) (f : jsstring -> nat -> jsstring)
  (l : list jsstring) : list jsstring :=
  match l with
  | [] => []
  | d :: r => f d i :: mapi_from (S i) f r
  end.

Fixpoint filteri_from (i : nat) (p : nat -> bool) (l : list jsstring)
  : list jsstring :=
  match l with
  | [] => []
  | d :: r =>
      if p i then d :: filteri_from (S i) p r else filteri_from (S i) p r
  end.

Definition addAnotherDish : M State unit :=
  setDishes (fun prev => prev ++ [[]]).

Definition updateDish (index : nat) (name : jsstring) : M State unit :=
  setDishes (mapi_from 0 (fun dish i => if Nat.eqb i index then name else dish)).

Definition removeDish (index : nat) : M State unit :=
  setDishes (filteri_from 0 (fun i => negb (Nat.eqb i index))).

(** [dishes.filter(d => d.trim() !== '')] *)
Definition filledDishes (ds : list jsstring) : list jsstring :=
  filter (fun d => negb (string_eqb (trim d) [])) ds.

(** [params.lat ? parseFloat(params.lat) : undefined] *)
Definition parse_coordinate (p : option jsstring) : option jsnumber :=
  match p with
  | Some text => if string_truthy text then Some (parseFloat text) else None
  | None => None
  end.

(** [process.env.EXPO_PUBLIC_API_URL || 'http://localhost:8080'] *)
Definition API_URL (env : option jsstring) : jsstring :=
  match env with
  | Some u => if string_truthy u then u else lit "http://localhost:8080"
  | None => lit "http://localhost:8080"
  end.

(** The template [`Server error: ${response.status} ${response.statusText}`]. *)
Definition server_error_text (response : Response) : jsstring :=
  lit "Server error: " ++ Number_toString_int (status response)
    ++ lit " " ++ statusText response.

(** The success alert's one button: [{ text: "OK", onPress: () => router.back() }]. *)
Definition ok_button : AlertButton :=
  {| button_text := lit "OK"; onPress := [router_back] |}.

Section Screen.
Variable pf : Platform.
Variable w : World.
Variable EXPO_PUBLIC_API_URL : option jsstring.
Variable params : Params.

Definition handleSubmit : M State unit :=
  s <- get ;;
  let filledDishes := filledDishes (dishes s) in
  if Nat.eqb (List.length filledDishes) 0 then
    emit (Alert_alert (lit "Missing Info")
                      (lit "Please enter at least one dish name") []) ;;
    return_
  else if (rating s =? 0)%Z then
    emit (Alert_alert (lit "Missing Info")
                      (lit "Please rate your experience") []) ;;
    return_
  else
    setIsSubmitting true ;;
    try_catch_finally
      (r <- await_getSession w State ;;
       match error r, data_session r with
       | None, Some session =>
           emit (console_log filledDishes) ;;
           let reviewData :=
             {| rd_provider := provider params;
                rd_providerId := providerId params;
                rd_name := name params;
                rd_address := address params;
                rd_lat := parse_coordinate (lat params);
                rd_lng := parse_coordinate (lng params);
                rd_rating := rating s;
                rd_text := [];
                rd_dishes := filledDishes |} in
           response <- await_fetch w State
             {| req_url := API_URL EXPO_PUBLIC_API_URL ++ lit "/reviews";
                req_method := lit "POST";
                req_headers :=
                  [ (lit "Content-Type", lit "application/json");
                    (lit "Authorization",
                     lit "Bearer " ++ access_token session) ];
                req_body := Some reviewData |} ;;
           (if negb (ok response) then
              errorText <- await_text State response ;;
              errorData <-
                try_catch (JSON_parse pf State errorText)
                  (fun _ => ret (JObject [(lit "message", JString errorText)])) ;;
              message <- get_message pf State errorData ;;
              throw_new_Error pf State
                match message with
                | Some m =>
                    if truthy m then m else JString (server_error_text response)
                | None => JString (server_error_text response)
                end
            else ret tt) ;;
           _ <- await_json pf State response ;;
           emit (Alert_alert (lit "Success")
                             (lit "Your review has been submitted!")
                             [ok_button])
       | _, _ =>
           emit (Alert_alert (lit "Error")
                             (lit "You must be logged in to submit a review") []) ;;
           setIsSubmitting false ;;
           return_
       end)
      (fun error =>
         emit (Alert_alert (lit "Error")
                 match error with
                 | JSError message => message
                 | NonError => lit "Failed to submit review. Please try again."
                 end []))
      (setIsSubmitting false).

(** The submit control: [onPress={handleSubmit}] with
    [disabled={isSubmitting}]; a press on a disabled control does nothing. *)
Definition pressSubmit : M State unit :=
  s <- get ;;
  if isSubmitting s then ret tt else handleSubmit.

End Screen.

End CreateReview.

(* ================================================================== *)
(** * The feed tab *)
(* ================================================================== *)

Module HomeTab.
Import JS JSON API Handler.
Local Open Scope handler_scope.

(** The three [useState] cells of the component; [reviews] holds whatever
    the last successful load parsed. *)
Record State : Type := {
  reviews : value;
  loading : bool;
  refreshing : bool
}.

Definition initial : State :=
  {| reviews := JArray []; loading := true; refreshing := false |}.

Definition setReviews (v : value) : M State unit :=
  modify (fun s =>
    {| reviews := v; loading := loading s; refreshing := refreshing s |}).

Definition setLoading (b : bool) : M State unit :=
  modify (fun s =>
    {| reviews := reviews s; loading := b; refreshing := refreshing s |}).

Definition setRefreshing (b : bool) : M State unit :=
  modify (fun s =>
    {| reviews := reviews s; loading := loading s; refreshing := b |}).

Section Screen.
Variable pf : Platform.
Variable w : World.

Definition fetchFriendsReviews : M State unit :=
  try_catch_finally
    (data <- await_getSession w State ;;
     let token := option_map access_token (data_session data) in
     res <- await_fetch w State
       {| req_url := lit "http://localhost:8080/reviews/feed";
          req_method := lit "GET";
          req_headers :=
            [ (lit "Authorization",
               lit "Bearer " ++
                 match token with
                 | Some t => t
                 | None => lit "undefined"
                 end) ];
          req_body := None |} ;;
     if ok res then
       feedData <- await_json pf State res ;;
       setReviews feedData
     else ret tt)
    (fun error => emit (console_error (lit "Error fetching feed:") error))
    (setLoading false ;; setRefreshing false).

Definition onRefresh : M State unit :=
  setRefreshing true ;;
  fetchFriendsReviews.

(** The quotient of [Math.ceil(a / b)] for a non-negative integer [a] and
    a positive integer [b]. *)
Definition ceil_div (a b : Z) : Z := (- ((- a) / b))%Z.

(** [formatDate(dateString)], with [new Date()] read from the world.  An
    invalid date has time value NaN, which fails all three comparisons,
    and its [toLocaleDateString()] is the text Invalid Date.

    Time values are integers of magnitude at most 8.64e15.  Below 2^53
    the difference is exact and the double quotient by 86400000 never
    rounds down to an integer it exceeds (the quotient is under 2^27 and
    lies at least 1/86400000 above that integer, more than half an ulp), so
    [Math.ceil] gives the integer ceiling; above 2^53 both the double and
    the integer result are far beyond 7, where only the comparison matters. *)
Definition formatDate (dateString : jsstring) : jsstring :=
  match Date_parse pf dateString with
  | None => lit "Invalid Date"
  | Some date =>
      let now := Date_now w in
      let diffTime := Z.abs (now - date) in
      let diffDays := ceil_div diffTime (1000 * 60 * 60 * 24) in
      if (diffDays =? 0)%Z then lit "Today"
      else if (diffDays =? 1)%Z then lit "Yesterday"
      else if (diffDays <? 7)%Z
           then Number_toString_int diffDays ++ lit " days ago"
      else toLocaleDateString pf date
  end.

End Screen.

End HomeTab.

(* ================================================================== *)
(** * The vocabulary of the specification *)
(* ================================================================== *)

Module Contract.
Import JS JSON API Handler.

(** A blank dish slot: empty, or white space only. *)
Definition blank (d : jsstring) : bool := forallb isWhiteSpace d.

(** [BlanksRemoved ds r]: [r] is [ds] with exactly the entries whose
    trimmed form is empty removed, the others kept as they are and in
    their order. *)
Inductive BlanksRemoved : list jsstring -> list jsstring -> Prop :=
| removed_nil : BlanksRemoved [] []
| removed_drop d ds r :
    trim d = [] -> BlanksRemoved ds r -> BlanksRemoved (d :: ds) r
| removed_keep d ds r :
    trim d <> [] -> BlanksRemoved ds r -> BlanksRemoved (d :: ds) (d :: r).

(** The alerts by which the form surfaces the specification's errors. *)
Definition alert_EmptyDishList : event :=
  Alert_alert (lit "Missing Info") (lit "Please enter at least one dish name") [].

Definition alert_NoRating : event :=
  Alert_alert (lit "Missing Info") (lit "Please rate your experience") [].

Definition alert_NotAuthenticated : event :=
  Alert_alert (lit "Error") (lit "You must be logged in to submit a review") [].

(** ServerRejected and TransportFailure, with the message surfaced. *)
Definition alert_Error (message : jsstring) : event :=
  Alert_alert (lit "Error") message [].

Definition alert_Success : event :=
  Alert_alert (lit "Success") (lit "Your review has been submitted!")
              [CreateReview.ok_button].

(** The draft passes the two fast-fail checks. *)
Definition passes_validation (s : CreateReview.State) : Prop :=
  CreateReview.filledDishes (CreateReview.dishes s) <> [] /\
  CreateReview.rating s <> 0%Z.

(** The Submission Payload of a draft. *)
Definition submission_payload (params : CreateReview.Params)
  (s : CreateReview.State) : ReviewData :=
  {| rd_provider := CreateReview.provider params;
     rd_providerId := CreateReview.providerId params;
     rd_name := CreateReview.name params;
     rd_address := CreateReview.address params;
     rd_lat := CreateReview.parse_coordinate (CreateReview.lat params);
     rd_lng := CreateReview.parse_coordinate (CreateReview.lng params);
     rd_rating := CreateReview.rating s;
     rd_text := [];
     rd_dishes := CreateReview.filledDishes (CreateReview.dishes s) |}.

(** The creation request for a draft under a session. *)
Definition submission_request (env : option jsstring)
  (params : CreateReview.Params) (s : CreateReview.State)
  (session : Session) : Request :=
  {| req_url := CreateReview.API_URL env ++ lit "/reviews";
     req_method := lit "POST";
     req_headers :=
       [ (lit "Content-Type", lit "application/json");
         (lit "Authorization", lit "Bearer " ++ access_token session) ];
     req_body := Some (submission_payload params s) |}.

(** The events of a run up to and including the request. *)
Definition through_request (env : option jsstring)
  (params : CreateReview.Params) (s : CreateReview.State)
  (session : Session) : list event :=
  [ getSession_call;
    console_log (CreateReview.filledDishes (CreateReview.dishes s));
    fetch_call (submission_request env params s session) ].

(** The draft once its submit flag is cleared: the flow is back in Editing. *)
Definition editing (s : CreateReview.State) : CreateReview.State :=
  {| CreateReview.dishes := CreateReview.dishes s;
     CreateReview.rating := CreateReview.rating s;
     CreateReview.isSubmitting := false |}.

(** The run surfaced a failure: an alert other than the success notice. *)
Definition is_failure_alert (e : event) : bool :=
  match e with
  | Alert_alert title _ _ => negb (string_eqb title (lit "Success"))
  | _ => false
  end.

Definition ends_in_failure (trace : list event) : Prop :=
  existsb is_failure_alert trace = true.

(** The feed request sent after a session lookup. *)
Definition feed_request (r : SessionResult) : Request :=
  {| req_url := lit "http://localhost:8080/reviews/feed";
     req_method := lit "GET";
     req_headers :=
       [ (lit "Authorization",
          lit "Bearer " ++
            match data_session r with
            | Some session => access_token session
            | None => lit "undefined"
            end) ];
     req_body := None |}.

(** A feed load fails: the session lookup or the request rejects, the
    status is not a success, or the body of a success is not JSON. *)
Definition feed_load_fails (w : World) : Prop :=
  match auth_getSession w with
  | inl _ => True
  | inr r =>
      match fetch w (feed_request r) with
      | inl _ => True
      | inr res => ok res = false \/ parse (bodyText res) = None
      end
  end.

(** One day, in milliseconds. *)
Definition day_ms : Z := 86400000.

(** [N] is the ceiling of the elapsed days between [now] and [createdAt]. *)
Definition elapsed_days_ceiling (now createdAt N : Z) : Prop :=
  ((N - 1) * day_ms < Z.abs (now - createdAt) <= N * day_ms)%Z.

End Contract.

(* ================================================================== *)
(** * Sample platforms, worlds and drafts *)
(* ================================================================== *)

Module Samples.
Import JS JSON API Handler.

(** The double quote, and a text between double quotes. *)
Definition dquote : jsstring := [34%N].
Definition quoted (s : string) : jsstring := dquote ++ lit s ++ dquote.

Definition platform : Platform :=
  {| TypeError_property_of_null := fun p =>
       lit "Cannot read property '" ++ p ++ lit "' of null";
     SyntaxError_message := fun _ => lit "JSON Parse error: Unexpected token";
     Error_message_of := fun _ => lit "[object Object]";
     Date_parse := fun text =>
       if string_eqb text (lit "2026-01-01T00:00:00.000Z")
       then Some 1767225600000%Z else None;
     toLocaleDateString := fun _ => lit "1/1/2026" |}.

Definition params : CreateReview.Params :=
  {| CreateReview.name := Some (lit "Chez Panisse");
     CreateReview.address := Some (lit "1517 Shattuck Ave");
     CreateReview.provider := Some (lit "google");
     CreateReview.providerId := Some (lit "abc123");
     CreateReview.lat := Some (lit "37.8796");
     CreateReview.lng := None |}.

Definition draft (ds : list jsstring) (stars : Z) : CreateReview.State :=
  {| CreateReview.dishes := ds;
     CreateReview.rating := stars;
     CreateReview.isSubmitting := false |}.

Definition session : Session := {| access_token := lit "token" |}.

Definition signed_in : thrown + SessionResult :=
  inr {| data_session := Some session; error := None |}.

Definition signed_out : thrown + SessionResult :=
  inr {| data_session := None; error := None |}.

(** A world whose service answers every request with [res]. *)
Definition world_answering (auth : thrown + SessionResult) (res : Response)
  : World :=
  {| auth_getSession := auth;
     fetch := fun _ => inr res;
     Date_now := 1767225600000%Z |}.

(** A world whose network is down. *)
Definition world_offline (auth : thrown + SessionResult) : World :=
  {| auth_getSession := auth;
     fetch := fun _ => inl (JSError (lit "Network request failed"));
     Date_now := 1767225600000%Z |}.

(** A world whose clock reads [now]. *)
Definition world_at (now : Z) : World :=
  {| auth_getSession := signed_in;
     fetch := fun _ => inl (JSError (lit "Network request failed"));
     Date_now := now |}.

Definition response (code : Z) (reason : string) (body : jsstring)
  : Response :=
  {| status := code; statusText := lit reason; bodyText := body |}.

Definition fries_and_burger : list jsstring :=
  [lit "Fries"; []; lit "  Burger  "].

Definition feed_shown : HomeTab.State :=
  {| HomeTab.reviews := JArray [JString (lit "a review")];
     HomeTab.loading := false;
     HomeTab.refreshing := false |}.

End Samples.

(* ================================================================== *)
(** * The controls of the review form *)
(* ================================================================== *)

Module FormUI.
Import JS JSON API Handler CreateReview.
Local Open Scope handler_scope.

(** The two icon names of a star row. *)
Inductive icon : Type :=
| star
| star_outline.

(** The array literal [[1, 2, 3, 4, 5]] the rating row maps over. *)
Definition stars : list Z := [1; 2; 3; 4; 5]%Z.

(** The rating row: [name={star <= rating ? "star" : "star-outline"}] for
    each star. *)
Definition starIcons (rating : Z) : list icon :=
  map (fun st => if (st <=? rating)%Z then star else star_outline) stars.

(** [dishes.length > 1 &&] before the remove control of each row. *)
Definition removeControlShown (s : State) : bool :=
  Nat.ltb 1 (List.length (dishes s)).

(** What the user can do on the form.  A row's controls exist for the
    rows rendered, [dishes.map((dish, index) => ...)]; a star control
    exists for each position of [stars]. *)
Inductive gesture : Type :=
| press_addDish
| change_text (index : nat) (text : jsstring)
| press_remove (index : nat)
| press_star (position : nat)
| press_submit (w : World).

Section Screen.
Variable pf : Platform.
Variable EXPO_PUBLIC_API_URL : option jsstring.
Variable params : Params.

(** The handler each control is wired to; a gesture on a control that is
    not rendered does nothing. *)
Definition handle (g : gesture) : M State unit :=
  match g with
  | press_addDish => addAnotherDish
  | change_text index text =>
      s <- get ;;
      if Nat.ltb index (List.length (dishes s))
      then updateDish index text else ret tt
  | press_remove index =>
      s <- get ;;
      if removeControlShown s && Nat.ltb index (List.length (dishes s))
      then removeDish index else ret tt
  | press_star position =>
      match nth_error stars position with
      | Some st => setRating st
      | None => ret tt
      end
  | press_submit w => pressSubmit pf w EXPO_PUBLIC_API_URL params
  end.

(** The state after a sequence of gestures, each handler run to its end. *)
Definition after (gs : list gesture) (s : State) : State :=
  fold_left (fun st g => state_of (handle g st)) gs s.

End Screen.

End FormUI.

(* ================================================================== *)
(** * The cards of the feed *)
(* ================================================================== *)

Module FeedView.
Import JS JSON API Handler.

(** [interface Review], with an integer rating. *)
Record Review : Type := {
  id : jsstring;
  userId : jsstring;
  userName : jsstring;
  userAvatar : option jsstring;
  restaurantId : jsstring;
  restaurantName : jsstring;
  restaurantAddress : jsstring;
  rating : Z;
  text : jsstring;
  photoUrls : option (list jsstring);
  items : option (list jsstring);
  createdAt : jsstring
}.

(** [renderRating(rating)]: [[...Array(5)].map((_, i) => i < rating ? ...)],
    for an integer rating. *)
Definition renderRating (rating : Z) : list FormUI.icon :=
  map (fun i => if (i <? rating)%Z then FormUI.star else FormUI.star_outline)
      [0; 1; 2; 3; 4]%Z.

(** The text [+{n} more] of the items row and the text [+{n}] of the photo
    badge. *)
Definition more_items_text (n : Z) : jsstring :=
  lit "+" ++ Number_toString_int n ++ lit " more".

Definition more_photos_text (n : Z) : jsstring :=
  lit "+" ++ Number_toString_int n.

(** The items block of a card, [None] when it is not rendered: the chips
    [item.items.slice(0, 3)] and, when [item.items.length > 3], the text
    counting the others. *)
Definition itemsBlock (r : Review) : option (list jsstring * option jsstring) :=
  match items r with
  | Some l =>
      if Nat.ltb 0 (List.length l) then
        Some (firstn 3 l,
              if Nat.ltb 3 (List.length l)
              then Some (more_items_text (Z.of_nat (List.length l) - 3))
              else None)
      else None
  | None => None
  end.

(** The photo block of a card, [None] when it is not rendered: the lead
    photo [item.photoUrls[0]] and, when [item.photoUrls.length > 1], the
    badge counting the others. *)
Definition photoBlock (r : Review) : option (jsstring * option jsstring) :=
  match photoUrls r with
  | Some l =>
      if Nat.ltb 0 (List.length l) then
        match nth_error l 0 with
        | Some lead =>
            Some (lead,
                  if Nat.ltb 1 (List.length l)
                  then Some (more_photos_text (Z.of_nat (List.length l) - 1))
                  else None)
        | None => None
        end
      else None
  | None => None
  end.

End FeedView.

(* ================================================================== *)
(** * Facts about strings and the JSON reader *)
(* ================================================================== *)

Module JSFacts.
Import JS.

Lemma string_eqb_nil (s : jsstring) : string_eqb s [] = true <-> s = [].
Proof.
  destruct s; simpl; split; intro H; try reflexivity; discriminate.
Qed.

Lemma trimStart_forallb (s : jsstring) :
  forallb isWhiteSpace (trimStart s) = forallb isWhiteSpace s.
Proof.
  induction s as [|c r IH]; simpl; [reflexivity|].
  destruct (isWhiteSpace c) eqn:E; simpl.
  - exact IH.
  - rewrite E. reflexivity.
Qed.

Lemma trimStart_nil_iff (s : jsstring) :
  trimStart s = [] <-> forallb isWhiteSpace s = true.
Proof.
  induction s as [|c r IH]; simpl.
  - split; reflexivity.
  - destruct (isWhiteSpace c); simpl.
    + exact IH.
    + split; discriminate.
Qed.

Lemma forallb_rev_eq (p : codeunit -> bool) (s : jsstring) :
  forallb p (rev s) = forallb p s.
Proof.
  induction s as [|c r IH]; simpl; [reflexivity|].
  rewrite forallb_app, IH. simpl. rewrite andb_true_r. apply andb_comm.
Qed.

Lemma rev_nil_iff (s : jsstring) : rev s = [] <-> s = [].
Proof.
  split; intro H.
  - rewrite <- (rev_involutive s), H. reflexivity.
  - subst. reflexivity.
Qed.

(** The trimmed form is empty exactly for the strings made of white space
    only (the empty string among them). *)
Lemma trim_nil_iff (s : jsstring) :
  trim s = [] <-> forallb isWhiteSpace s = true.
Proof.
  unfold trim, trimEnd.
  rewrite rev_nil_iff, trimStart_nil_iff, forallb_rev_eq, trimStart_forallb.
  reflexivity.
Qed.

End JSFacts.

Module JSONFacts.
Import JS JSON.

Lemma skip_ws_length (l : jsstring) : List.length (skip_ws l) <= List.length l.
Proof.
  induction l as [|c r IH]; simpl; [lia|].
  destruct (isJSONWhiteSpace c); simpl; lia.
Qed.

Lemma parsed_map_Ok {A B} (f : A -> B) (p : parsed A) b rest :
  parsed_map f p = Ok b rest -> exists a, p = Ok a rest /\ b = f a.
Proof.
  destruct p; simpl; intro H; inversion H; subst. eauto.
Qed.

Lemma parsed_map_fuel {A B} (f : A -> B) (p : parsed A) :
  parsed_map f p = OutOfFuel -> p = OutOfFuel.
Proof. destruct p; simpl; intro H; [discriminate | discriminate | reflexivity]. Qed.

Lemma string_chars_fuel (l : jsstring) : string_chars l <> OutOfFuel.
Proof.
  remember (List.length l) as n eqn:Hn.
  revert l Hn. induction n as [n IH] using lt_wf_ind. intros l Hn.
  destruct l as [|c r]; simpl; [discriminate|].
  destruct (c =? 34)%N; [discriminate|].
  destruct (c =? 92)%N.
  - destruct r as [|e r']; [discriminate|].
    destruct (e =? 117)%N.
    + destruct r' as [|h1 [|h2 [|h3 [|h4 r'']]]]; try discriminate.
      destruct (hex_digit h1), (hex_digit h2), (hex_digit h3), (hex_digit h4);
        try discriminate.
      intro H. apply parsed_map_fuel in H. revert H.
      apply (IH (List.length r'')); [subst; simpl; lia | reflexivity].
    + destruct (escape e); [|discriminate].
      intro H. apply parsed_map_fuel in H. revert H.
      apply (IH (List.length r')); [subst; simpl; lia | reflexivity].
  - destruct (c <? 32)%N; [discriminate|].
    intro H. apply parsed_map_fuel in H. revert H.
    apply (IH (List.length r)); [subst; simpl; lia | reflexivity].
Qed.

Lemma string_chars_length (l : jsstring) s rest :
  string_chars l = Ok s rest -> List.length rest < List.length l.
Proof.
  remember (List.length l) as n eqn:Hn.
  revert l s rest Hn. induction n as [n IH] using lt_wf_ind.
  intros l s rest Hn.
  destruct l as [|c r]; simpl; [discriminate|].
  destruct (c =? 34)%N.
  { intro H; inversion H; subst; simpl; lia. }
  destruct (c =? 92)%N.
  - destruct r as [|e r']; [discriminate|].
    destruct (e =? 117)%N.
    + destruct r' as [|h1 [|h2 [|h3 [|h4 r'']]]]; try discriminate.
      destruct (hex_digit h1), (hex_digit h2), (hex_digit h3), (hex_digit h4);
        try discriminate.
      intro H. apply parsed_map_Ok in H. destruct H as [a [H _]].
      apply (IH (List.length r'')) in H; subst; simpl in *; try lia; reflexivity.
    + destruct (escape e); [|discriminate].
      intro H. apply parsed_map_Ok in H. destruct H as [a [H _]].
      apply (IH (List.length r')) in H; subst; simpl in *; try lia; reflexivity.
  - destruct (c <? 32)%N; [discriminate|].
    intro H. apply parsed_map_Ok in H. destruct H as [a [H _]].
    apply (IH (List.length r)) in H; subst; simpl in *; try lia; reflexivity.
Qed.

Lemma take_digits_length (l : jsstring) ds rest :
  take_digits l = (ds, rest) ->
  List.length ds + List.length rest = List.length l.
Proof.
  revert ds rest. induction l as [|c r IH]; simpl; intros ds rest H.
  - inversion H; reflexivity.
  - destruct (is_digit c).
    + destruct (take_digits r) as [ds' rest'] eqn:E.
      inversion H; subst. simpl. specialize (IH _ _ eq_refl). lia.
    + inversion H; subst. simpl. lia.
Qed.

Lemma number_fuel (l : jsstring) : number l <> OutOfFuel.
Proof.
  unfold number.
  repeat match goal with
  | |- context [match ?x with _ => _ end] => destruct x eqn:?
  | |- context [if ?x then _ else _] => destruct x eqn:?
  end; try discriminate.
Qed.

Lemma number_length (l : jsstring) v rest :
  number l = Ok v rest -> List.length rest < List.length l.
Proof.
  unfold number. intro H.
  destruct (match l with
            | c :: r => if (c =? 45)%N then (true, r) else (false, l)
            | [] => (false, l)
            end) as [neg input1] eqn:E0.
  assert (Hin : List.length input1 <= List.length l).
  { destruct l as [|c r]; [|destruct (c =? 45)%N];
      inversion E0; subst; simpl; lia. }
  clear E0.
  repeat match type of H with
  | context [match ?x with _ => _ end] => destruct x eqn:?
  | context [if ?x then _ else _] => destruct x eqn:?
  end; try discriminate; inversion H; subst;
  repeat match goal with
  | Hx : take_digits _ = _ |- _ => apply take_digits_length in Hx
  | Hx : Some _ = Some _ |- _ => inversion Hx; subst; clear Hx
  | Hx : (_, _) = (_, _) |- _ => inversion Hx; subst; clear Hx
  | Hx : None = Some _ |- _ => discriminate Hx
  | Hx : context [match ?x with _ => _ end] |- _ => destruct x eqn:?
  end; simpl in *; lia.
Qed.

Lemma literal_name_fuel (l : jsstring) : literal_name l <> OutOfFuel.
Proof.
  unfold literal_name.
  repeat match goal with
  | |- context [match ?x with _ => _ end] => destruct x
  end; discriminate.
Qed.

Lemma literal_name_length (l : jsstring) v rest :
  literal_name l = Ok v rest -> List.length rest < List.length l.
Proof.
  unfold literal_name. intro H.
  repeat match type of H with
  | context [match ?x with _ => _ end] => destruct x
  end; try discriminate; inversion H; subst; simpl; lia.
Qed.

#[local] Arguments number : simpl never.
#[local] Arguments literal_name : simpl never.

(** With fuel above twice the length of the input the reader never stops
    for lack of fuel, and a value it reads consumes input. *)
Lemma parse_fuel (f : nat) :
  (forall input, 2 * List.length input + 1 <= f ->
     parse_value f input <> OutOfFuel /\
     forall v rest, parse_value f input = Ok v rest ->
                    List.length rest < List.length input) /\
  (forall input, 2 * List.length input + 2 <= f ->
     parse_elements f input <> OutOfFuel /\
     forall v rest, parse_elements f input = Ok v rest ->
                    List.length rest < List.length input) /\
  (forall input, 2 * List.length input + 2 <= f ->
     parse_members f input <> OutOfFuel /\
     forall v rest, parse_members f input = Ok v rest ->
                    List.length rest < List.length input).
Proof.
  induction f as [|f [IHv [IHe IHm]]].
  - repeat split; intros; simpl in *; lia.
  - split; [|split]; intros input Hf.
    + (* a value *)
      simpl. pose proof (skip_ws_length input) as Hs.
      destruct (skip_ws input) as [|c r] eqn:E;
        [split; [discriminate | intros; discriminate]|].
      simpl in Hs.
      destruct (c =? 123)%N.
      { pose proof (skip_ws_length r) as Hs2.
        destruct (skip_ws r) as [|c' r'] eqn:E2;
          [split; [discriminate | intros; discriminate]|].
        simpl in Hs2.
        destruct (c' =? 125)%N.
        { split; [discriminate|].
          intros v rest H1; inversion H1; subst; lia. }
        destruct (IHm (c' :: r')) as [Hm1 Hm2]; [simpl; lia|].
        split.
        - intro H1. apply parsed_map_fuel in H1. contradiction.
        - intros v rest H1. apply parsed_map_Ok in H1.
          destruct H1 as [a [H1 _]]. apply Hm2 in H1. simpl in H1. lia. }
      destruct (c =? 91)%N.
      { pose proof (skip_ws_length r) as Hs2.
        destruct (skip_ws r) as [|c' r'] eqn:E2;
          [split; [discriminate | intros; discriminate]|].
        simpl in Hs2.
        destruct (c' =? 93)%N.
        { split; [discriminate|].
          intros v rest H1; inversion H1; subst; lia. }
        destruct (IHe (c' :: r')) as [He1 He2]; [simpl; lia|].
        split.
        - intro H1. apply parsed_map_fuel in H1. contradiction.
        - intros v rest H1. apply parsed_map_Ok in H1.
          destruct H1 as [a [H1 _]]. apply He2 in H1. simpl in H1. lia. }
      destruct (c =? 34)%N.
      { split.
        - intro H1. apply parsed_map_fuel in H1.
          exact (string_chars_fuel _ H1).
        - intros v rest H1. apply parsed_map_Ok in H1.
          destruct H1 as [a [H1 _]]. apply string_chars_length in H1. lia. }
      destruct ((c =? 45)%N || is_digit c).
      { split; [apply number_fuel|].
        intros v rest H1. apply number_length in H1. simpl in H1. lia. }
      split; [apply literal_name_fuel|].
      intros v rest H1. apply literal_name_length in H1. simpl in H1. lia.
    + (* the elements of an array *)
      simpl. destruct (IHv input) as [Hv1 Hv2]; [lia|].
      destruct (parse_value f input) as [v rest| |] eqn:E;
        [| split; [discriminate | intros; discriminate] | contradiction].
      specialize (Hv2 _ _ eq_refl).
      pose proof (skip_ws_length rest) as Hs.
      destruct (skip_ws rest) as [|c r] eqn:E2;
        [split; [discriminate | intros; discriminate]|].
      simpl in Hs.
      destruct (c =? 44)%N.
      { destruct (IHe r) as [He1 He2]; [lia|].
        split.
        - intro H1. apply parsed_map_fuel in H1. contradiction.
        - intros vs rest' H1. apply parsed_map_Ok in H1.
          destruct H1 as [a [H1 _]]. apply He2 in H1. lia. }
      destruct (c =? 93)%N.
      { split; [discriminate|].
        intros vs rest' H1; inversion H1; subst; lia. }
      split; [discriminate | intros; discriminate].
    + (* the members of an object *)
      simpl. pose proof (skip_ws_length input) as Hs.
      destruct (skip_ws input) as [|q r] eqn:E;
        [split; [discriminate | intros; discriminate]|].
      simpl in Hs.
      destruct (q =? 34)%N; [|split; [discriminate | intros; discriminate]].
      pose proof (string_chars_fuel r) as Hk1.
      destruct (string_chars r) as [k rest| |] eqn:Ek;
        [| split; [discriminate | intros; discriminate] | contradiction].
      apply string_chars_length in Ek.
      pose proof (skip_ws_length rest) as Hs2.
      destruct (skip_ws rest) as [|c r2] eqn:E2;
        [split; [discriminate | intros; discriminate]|].
      simpl in Hs2.
      destruct (c =? 58)%N; [|split; [discriminate | intros; discriminate]].
      destruct (IHv r2) as [Hv1 Hv2]; [lia|].
      destruct (parse_value f r2) as [v rest2| |] eqn:Ev;
        [| split; [discriminate | intros; discriminate] | contradiction].
      specialize (Hv2 _ _ eq_refl).
      pose proof (skip_ws_length rest2) as Hs3.
      destruct (skip_ws rest2) as [|c2 r3] eqn:E3;
        [split; [discriminate | intros; discriminate]|].
      simpl in Hs3.
      destruct (c2 =? 44)%N.
      { destruct (IHm r3) as [Hm1 Hm2]; [lia|].
        split.
        - intro H1. apply parsed_map_fuel in H1. contradiction.
        - intros vs rest' H1. apply parsed_map_Ok in H1.
          destruct H1 as [a [H1 _]]. apply Hm2 in H1. lia. }
      destruct (c2 =? 125)%N.
      { split; [discriminate|].
        intros vs rest' H1; inversion H1; subst; lia. }
      split; [discriminate | intros; discriminate].
Qed.

(** [parse] never stops for lack of fuel: [None] is a syntax error. *)
Lemma parse_value_fuel (text : jsstring) :
  parse_value (fuel_for text) text <> OutOfFuel.
Proof.
  apply (parse_fuel (fuel_for text)). unfold fuel_for. lia.
Qed.

End JSONFacts.

(* ================================================================== *)
(** * The review form: the paths of [handleSubmit] *)
(* ================================================================== *)

Module CreateReviewFacts.
Import JS JSON API Handler CreateReview Contract.

#[local] Arguments filledDishes : simpl never.
#[local] Arguments lit : simpl never.
#[local] Arguments API_URL : simpl never.
#[local] Arguments server_error_text : simpl never.
#[local] Arguments parse : simpl never.
#[local] Arguments truthy : simpl never.

Ltac unfold_handler :=
  unfold handleSubmit, pressSubmit, try_catch_finally, try_finally,
    try_catch, await_getSession, await_fetch, await_text, await_json,
    JSON_parse, get_message, throw_new_Error, await, setIsSubmitting,
    bind, get, emit, modify, ret, throw, return_.

(** Case analysis on the innermost scrutinee first, so that no branch
    loses what an outer one computed. *)
Ltac destruct_innermost :=
  match goal with
  | |- context [match ?x with _ => _ end] =>
      lazymatch x with
      | context [match _ with _ => _ end] => fail
      | _ => destruct x eqn:?
      end
  end.

Ltac all_paths := unfold_handler; repeat (destruct_innermost; simpl).

Lemma keeps_iff (d : jsstring) :
  negb (string_eqb (trim d) []) = true <-> trim d <> [].
Proof.
  rewrite negb_true_iff, <- not_true_iff_false, JSFacts.string_eqb_nil.
  reflexivity.
Qed.

Lemma blank_iff (d : jsstring) : blank d = true <-> trim d = [].
Proof. unfold blank. symmetry. apply JSFacts.trim_nil_iff. Qed.

Lemma filledDishes_cons (d : jsstring) (ds : list jsstring) :
  filledDishes (d :: ds) =
  if blank d then filledDishes ds else d :: filledDishes ds.
Proof.
  unfold filledDishes. simpl.
  destruct (blank d) eqn:B.
  - apply blank_iff in B. rewrite B. reflexivity.
  - destruct (string_eqb (trim d) []) eqn:E; [|reflexivity].
    apply JSFacts.string_eqb_nil, blank_iff in E. congruence.
Qed.

Lemma filledDishes_nil_iff (ds : list jsstring) :
  filledDishes ds = [] <-> Forall (fun d => blank d = true) ds.
Proof.
  induction ds as [|d ds IH].
  - split; [constructor | reflexivity].
  - rewrite filledDishes_cons. destruct (blank d) eqn:B.
    + rewrite IH. split; intro H.
      * constructor; assumption.
      * inversion H; assumption.
    + split; [discriminate|]. intro H. inversion H; congruence.
Qed.

Lemma filledDishes_nonempty_iff (ds : list jsstring) :
  filledDishes ds <> [] <-> exists d, In d ds /\ blank d = false.
Proof.
  rewrite filledDishes_nil_iff. split.
  - intro H. apply neg_Forall_Exists_neg in H.
    + apply Exists_exists in H. destruct H as [d [Hin Hd]].
      exists d. split; [assumption|]. destruct (blank d); congruence.
    + intro d. destruct (blank d); [left | right]; congruence.
  - intros [d [Hin Hd]] H. rewrite Forall_forall in H.
    apply H in Hin. congruence.
Qed.

Lemma length_eqb_0 {A} (l : list A) :
  Nat.eqb (List.length l) 0 = match l with [] => true | _ :: _ => false end.
Proof. destruct l; reflexivity. Qed.

Section Paths.
Variable pf : Platform.
Variable w : World.
Variable env : option jsstring.
Variable params : Params.
Variable s : State.

(** No dish filled in: the first alert, and nothing else happens. *)
Lemma path_no_dish :
  filledDishes (dishes s) = [] ->
  handleSubmit pf w env params s = (Return, s, [alert_EmptyDishList]).
Proof.
  intro H. unfold_handler. rewrite H. reflexivity.
Qed.

(** No rating: the second alert, and nothing else happens. *)
Lemma path_no_rating :
  filledDishes (dishes s) <> [] -> rating s = 0%Z ->
  handleSubmit pf w env params s = (Return, s, [alert_NoRating]).
Proof.
  intros H R. unfold_handler. rewrite length_eqb_0.
  destruct (filledDishes (dishes s)); [congruence|].
  rewrite R. reflexivity.
Qed.

Ltac enter_try H R :=
  unfold through_request, submission_request, submission_payload, editing,
    alert_Error, alert_NotAuthenticated, alert_Success in *;
  unfold_handler; rewrite length_eqb_0;
  destruct (filledDishes (dishes s)) eqn:?; [congruence|];
  apply Z.eqb_neq in R; rewrite R; cbv beta iota zeta.

(** The session lookup rejects: caught, surfaced, flag cleared. *)
Lemma path_session_rejects e :
  filledDishes (dishes s) <> [] -> rating s <> 0%Z ->
  auth_getSession w = inl e ->
  handleSubmit pf w env params s =
  (Normal tt, editing s,
   [ getSession_call;
     alert_Error match e with
                 | JSError message => message
                 | NonError => lit "Failed to submit review. Please try again."
                 end ]).
Proof.
  intros H R A. enter_try H R. rewrite A. reflexivity.
Qed.

(** No session, or an error with it: the third alert, and no request. *)
Lemma path_not_authenticated r :
  filledDishes (dishes s) <> [] -> rating s <> 0%Z ->
  auth_getSession w = inr r ->
  error r <> None \/ data_session r = None ->
  handleSubmit pf w env params s =
  (Return, editing s, [getSession_call; alert_NotAuthenticated]).
Proof.
  intros H R A D. enter_try H R. rewrite A. cbn.
  destruct (error r) as [err|]; [reflexivity|].
  destruct D as [D|D]; [congruence|]. rewrite D. reflexivity.
Qed.

(** The request rejects: caught, surfaced, flag cleared. *)
Lemma path_fetch_rejects r session e :
  filledDishes (dishes s) <> [] -> rating s <> 0%Z ->
  auth_getSession w = inr r ->
  error r = None -> data_session r = Some session ->
  fetch w (submission_request env params s session) = inl e ->
  handleSubmit pf w env params s =
  (Normal tt, editing s,
   through_request env params s session ++
   [ alert_Error match e with
                 | JSError message => message
                 | NonError => lit "Failed to submit review. Please try again."
                 end ]).
Proof.
  intros H R A E D F. enter_try H R. rewrite A. cbn. rewrite E, D. cbn.
  rewrite F. reflexivity.
Qed.

(** A status outside 200..299: the message thrown by lines 88-100, surfaced
    by the catch block. *)
Lemma path_rejected r session response :
  filledDishes (dishes s) <> [] -> rating s <> 0%Z ->
  auth_getSession w = inr r ->
  error r = None -> data_session r = Some session ->
  fetch w (submission_request env params s session) = inr response ->
  ok response = false ->
  handleSubmit pf w env params s =
  (Normal tt, editing s,
   through_request env params s session ++
   [ alert_Error
       match parse (bodyText response) with
       | None =>
           if string_truthy (bodyText response) then bodyText response
           else server_error_text response
       | Some JNull => TypeError_property_of_null pf (lit "message")
       | Some (JObject members) =>
           match get_member (lit "message") members with
           | Some m =>
               if truthy m then
                 match m with
                 | JString text => text
                 | _ => Error_message_of pf m
                 end
               else server_error_text response
           | None => server_error_text response
           end
       | Some _ => server_error_text response
       end ]).
Proof.
  intros H R A E D F K. enter_try H R. rewrite A. cbn. rewrite E, D. cbn.
  rewrite F. cbn. rewrite K. cbn.
  destruct (parse (bodyText response)) as [v|] eqn:P; cbn.
  - destruct v as [ |b|neg mant e|text|elements|members]; cbn;
      try reflexivity.
    destruct (get_member (lit "message") members) as [m|]; cbn;
      [|reflexivity].
    destruct (truthy m) eqn:T; cbn; [|reflexivity].
    destruct m; reflexivity.
  - change (get_member (lit "message")
              [(lit "message", JString (bodyText response))])
      with (Some (JString (bodyText response))).
    unfold truthy.
    destruct (bodyText response); reflexivity.
Qed.

(** A success status with a body that is not JSON: the SyntaxError of
    [response.json()], caught and surfaced. *)
Lemma path_accepted_unparsable r session response :
  filledDishes (dishes s) <> [] -> rating s <> 0%Z ->
  auth_getSession w = inr r ->
  error r = None -> data_session r = Some session ->
  fetch w (submission_request env params s session) = inr response ->
  ok response = true ->
  parse (bodyText response) = None ->
  handleSubmit pf w env params s =
  (Normal tt, editing s,
   through_request env params s session ++
   [ alert_Error (SyntaxError_message pf (bodyText response)) ]).
Proof.
  intros H R A E D F K P. enter_try H R. rewrite A. cbn. rewrite E, D.
  cbn. rewrite F. cbn. rewrite K. cbn. rewrite P. reflexivity.
Qed.

(** A success status with a JSON body: the success notice. *)
Lemma path_accepted r session response v :
  filledDishes (dishes s) <> [] -> rating s <> 0%Z ->
  auth_getSession w = inr r ->
  error r = None -> data_session r = Some session ->
  fetch w (submission_request env params s session) = inr response ->
  ok response = true ->
  parse (bodyText response) = Some v ->
  handleSubmit pf w env params s =
  (Normal tt, editing s, through_request env params s session ++ [alert_Success]).
Proof.
  intros H R A E D F K P. enter_try H R. rewrite A. cbn. rewrite E, D.
  cbn. rewrite F. cbn. rewrite K. cbn. rewrite P. reflexivity.
Qed.

(** Whatever the path, the handler leaves the dishes and the rating as
    they were: it only ever writes the submit flag. *)
Lemma handleSubmit_frame :
  dishes (state_of (handleSubmit pf w env params s)) = dishes s /\
  rating (state_of (handleSubmit pf w env params s)) = rating s.
Proof.
  unfold state_of. all_paths; split; reflexivity.
Qed.

(** Every request of a run carries the payload of the draft. *)
Lemma handleSubmit_payloads d :
  In d (payloads (trace_of (handleSubmit pf w env params s))) ->
  d = submission_payload params s.
Proof.
  unfold trace_of, submission_payload.
  all_paths; intro H; simpl in H; intuition.
Qed.

(** A press on the submit control runs the handler only while the flag is
    false. *)
Lemma pressSubmit_enabled :
  isSubmitting s = false ->
  pressSubmit pf w env params s = handleSubmit pf w env params s.
Proof.
  intro I. unfold pressSubmit, bind, get. rewrite I.
  destruct (handleSubmit pf w env params s) as [[c s'] t]. reflexivity.
Qed.

Lemma pressSubmit_disabled :
  isSubmitting s = true ->
  pressSubmit pf w env params s = (Normal tt, s, []).
Proof.
  intro I. unfold pressSubmit, bind, get, ret. rewrite I. reflexivity.
Qed.

(** The submit flag after a run: untouched by the two fast-fail returns,
    cleared on every path past them. *)
Lemma handleSubmit_flag :
  isSubmitting (state_of (handleSubmit pf w env params s)) =
  match filledDishes (dishes s) with
  | [] => isSubmitting s
  | _ :: _ => if (rating s =? 0)%Z then isSubmitting s else false
  end.
Proof.
  unfold state_of. unfold_handler. rewrite length_eqb_0.
  repeat (destruct_innermost; simpl); reflexivity.
Qed.

End Paths.

Lemma BlanksRemoved_filledDishes (ds : list jsstring) :
  BlanksRemoved ds (filledDishes ds).
Proof.
  induction ds as [|d ds IH]; [constructor|].
  rewrite filledDishes_cons. destruct (blank d) eqn:B.
  - apply removed_drop; [apply blank_iff|]; assumption.
  - apply removed_keep; [|assumption].
    intro T. apply blank_iff in T. congruence.
Qed.

Lemma BlanksRemoved_functional (ds r : list jsstring) :
  BlanksRemoved ds r -> r = filledDishes ds.
Proof.
  induction 1 as [|d ds r T _ IH|d ds r T _ IH];
    [reflexivity| |]; rewrite filledDishes_cons.
  - apply blank_iff in T. rewrite T. exact IH.
  - destruct (blank d) eqn:B; [apply blank_iff in B; contradiction|].
    rewrite IH. reflexivity.
Qed.

Lemma filledDishes_idempotent (ds : list jsstring) :
  filledDishes (filledDishes ds) = filledDishes ds.
Proof.
  induction ds as [|d ds IH]; [reflexivity|].
  rewrite filledDishes_cons. destruct (blank d) eqn:B; [exact IH|].
  rewrite filledDishes_cons, B, IH. reflexivity.
Qed.

(** C1.  The dishes of the Submission Payload that [handleSubmit] sends are
    the draft's dishes with exactly the entries whose trimmed form is empty
    removed: the others are kept untrimmed and in order, filtering twice is
    filtering once, and Fries, an empty slot and a padded Burger give Fries
    and the padded Burger, also in the request of a run. *)
Theorem payload_dishes_filtered :
  (forall pf w env params s d,
      In d (payloads (trace_of (handleSubmit pf w env params s))) ->
      rd_dishes d = filledDishes (dishes s)) /\
  (forall ds r, BlanksRemoved ds r <-> r = filledDishes ds) /\
  (forall ds, filledDishes (filledDishes ds) = filledDishes ds) /\
  filledDishes Samples.fries_and_burger = [lit "Fries"; lit "  Burger  "] /\
  map rd_dishes
    (payloads
       (trace_of
          (handleSubmit Samples.platform
             (Samples.world_answering Samples.signed_in
                (Samples.response 201 "Created" (lit "{}")))
             None Samples.params
             (Samples.draft Samples.fries_and_burger 4))))
  = [[lit "Fries"; lit "  Burger  "]].
Proof.
  split; [|split; [|split; [|split]]].
  - intros pf w env params s d H.
    apply handleSubmit_payloads in H. subst d. reflexivity.
  - intros ds r. split.
    + apply BlanksRemoved_functional.
    + intro E. subst r. apply BlanksRemoved_filledDishes.
  - apply filledDishes_idempotent.
  - vm_compute. reflexivity.
  - vm_compute. reflexivity.
Qed.

(** C2.  When every dish slot is blank (empty or white space only),
    [handleSubmit] stops at the first check: the draft is untouched and the
    only event is the alert asking for a dish; no session lookup and no
    request is made. *)
Theorem blank_dishes_fail_fast pf w env params s :
  Forall (fun d => blank d = true) (dishes s) ->
  handleSubmit pf w env params s = (Return, s, [alert_EmptyDishList]) /\
  existsb is_network_call (trace_of (handleSubmit pf w env params s)) = false.
Proof.
  intro H. apply filledDishes_nil_iff in H.
  rewrite (path_no_dish pf w env params s H). split; reflexivity.
Qed.

Lemma blank_dishes_fail_fast_witness :
  (handleSubmit Samples.platform (Samples.world_offline Samples.signed_in)
     None Samples.params (Samples.draft [[]] 4)
   = (Return, Samples.draft [[]] 4, [alert_EmptyDishList]) /\
   existsb is_network_call
     (trace_of
        (handleSubmit Samples.platform
           (Samples.world_offline Samples.signed_in)
           None Samples.params (Samples.draft [[]] 4))) = false) /\
  (handleSubmit Samples.platform (Samples.world_offline Samples.signed_in)
     None Samples.params (Samples.draft [[]; lit "  "] 4)
   = (Return, Samples.draft [[]; lit "  "] 4, [alert_EmptyDishList]) /\
   existsb is_network_call
     (trace_of
        (handleSubmit Samples.platform
           (Samples.world_offline Samples.signed_in)
           None Samples.params (Samples.draft [[]; lit "  "] 4))) = false).
Proof.
  split.
  - apply (blank_dishes_fail_fast Samples.platform
             (Samples.world_offline Samples.signed_in) None Samples.params
             (Samples.draft [[]] 4)).
    repeat constructor.
  - apply (blank_dishes_fail_fast Samples.platform
             (Samples.world_offline Samples.signed_in) None Samples.params
             (Samples.draft [[]; lit "  "] 4)).
    repeat constructor.
Defined.

(** C3.  With at least one dish that is not blank and a rating of 0,
    [handleSubmit] stops at the second check: the draft is untouched and
    the only event is the alert asking for a rating; no session lookup and
    no request is made. *)
Theorem unrated_fails_fast pf w env params s :
  (exists d, In d (dishes s) /\ blank d = false) ->
  rating s = 0%Z ->
  handleSubmit pf w env params s = (Return, s, [alert_NoRating]) /\
  existsb is_network_call (trace_of (handleSubmit pf w env params s)) = false.
Proof.
  intros H R. apply filledDishes_nonempty_iff in H.
  rewrite (path_no_rating pf w env params s H R). split; reflexivity.
Qed.

Lemma unrated_fails_fast_witness :
  handleSubmit Samples.platform (Samples.world_offline Samples.signed_in)
     None Samples.params (Samples.draft [lit "Fries"] 0)
   = (Return, Samples.draft [lit "Fries"] 0, [alert_NoRating]) /\
  existsb is_network_call
    (trace_of
       (handleSubmit Samples.platform
          (Samples.world_offline Samples.signed_in)
          None Samples.params (Samples.draft [lit "Fries"] 0))) = false.
Proof.
  apply (unrated_fails_fast Samples.platform
           (Samples.world_offline Samples.signed_in) None Samples.params
           (Samples.draft [lit "Fries"] 0)).
  - exists (lit "Fries"). split; [left; reflexivity | reflexivity].
  - reflexivity.
Defined.

(** C4.  With a dish that is not blank and a rating other than 0, when the
    session lookup returns no session or returns an error, [handleSubmit]
    surfaces the not-logged-in alert after the lookup and nothing else: no
    request is made, the submit flag is cleared (the flow is back in
    Editing) and the dishes and rating are as they were. *)
Theorem no_session_not_authenticated pf w env params s r :
  (exists d, In d (dishes s) /\ blank d = false) ->
  rating s <> 0%Z ->
  auth_getSession w = inr r ->
  data_session r = None \/ error r <> None ->
  handleSubmit pf w env params s
  = (Return, editing s, [getSession_call; alert_NotAuthenticated]) /\
  existsb is_fetch_call (trace_of (handleSubmit pf w env params s)) = false /\
  isSubmitting (state_of (handleSubmit pf w env params s)) = false.
Proof.
  intros H R A D. apply filledDishes_nonempty_iff in H.
  rewrite (path_not_authenticated pf w env params s r H R A);
    [repeat split; reflexivity | tauto].
Qed.

Lemma no_session_not_authenticated_witness :
  handleSubmit Samples.platform (Samples.world_offline Samples.signed_out)
     None Samples.params (Samples.draft [lit "Fries"] 4)
  = (Return, editing (Samples.draft [lit "Fries"] 4),
     [getSession_call; alert_NotAuthenticated]) /\
  existsb is_fetch_call
    (trace_of
       (handleSubmit Samples.platform
          (Samples.world_offline Samples.signed_out)
          None Samples.params (Samples.draft [lit "Fries"] 4))) = false /\
  isSubmitting
    (state_of
       (handleSubmit Samples.platform
          (Samples.world_offline Samples.signed_out)
          None Samples.params (Samples.draft [lit "Fries"] 4))) = false.
Proof.
  apply (no_session_not_authenticated Samples.platform
           (Samples.world_offline Samples.signed_out) None Samples.params
           (Samples.draft [lit "Fries"] 4)
           {| data_session := None; error := None |}).
  - exists (lit "Fries"). split; [left; reflexivity | reflexivity].
  - discriminate.
  - reflexivity.
  - left. reflexivity.
Defined.

(** C5, as the code has it.  For a response with a status outside 200..299
    the catch block surfaces one message.  It is the raw body when the body
    is not JSON and not empty; the [message] member when the body is a JSON
    object whose [message] is a non-empty string (the text the engine gives
    any other truthy [message]); and the text made of status code and
    status text when the body is empty, when it is a JSON object without a
    [message] or with a falsy one, and when it is JSON that is neither an
    object nor null. *)
Theorem rejection_message_surfaced pf w env params s r session response :
  passes_validation s ->
  auth_getSession w = inr r ->
  error r = None -> data_session r = Some session ->
  fetch w (submission_request env params s session) = inr response ->
  ok response = false ->
  exists message,
    handleSubmit pf w env params s
    = (Normal tt, editing s,
       through_request env params s session ++ [alert_Error message]) /\
    (parse (bodyText response) = None -> bodyText response <> [] ->
     message = bodyText response) /\
    (bodyText response = [] -> message = server_error_text response) /\
    (forall members text,
        parse (bodyText response) = Some (JObject members) ->
        get_member (lit "message") members = Some (JString text) ->
        text <> [] -> message = text) /\
    (forall members m,
        parse (bodyText response) = Some (JObject members) ->
        get_member (lit "message") members = Some m ->
        truthy m = true ->
        message = match m with
                  | JString text => text
                  | _ => Error_message_of pf m
                  end) /\
    (forall members m,
        parse (bodyText response) = Some (JObject members) ->
        get_member (lit "message") members = Some m ->
        truthy m = false -> message = server_error_text response) /\
    (forall members,
        parse (bodyText response) = Some (JObject members) ->
        get_member (lit "message") members = None ->
        message = server_error_text response) /\
    (forall v,
        parse (bodyText response) = Some v ->
        match v with JNull | JObject _ => False | _ => True end ->
        message = server_error_text response).
Proof.
  intros [H R] A E D F K.
  eexists. split;
    [exact (path_rejected pf w env params s r session response H R A E D F K)|].
  repeat split.
  - intros P B. rewrite P. destruct (bodyText response); [congruence|].
    reflexivity.
  - intro B. rewrite B. reflexivity.
  - intros members text P G T. rewrite P, G.
    destruct text; [congruence | reflexivity].
  - intros members m P G T. rewrite P, G, T. reflexivity.
  - intros members m P G T. rewrite P, G, T. reflexivity.
  - intros members P G. rewrite P, G. reflexivity.
  - intros v P V. rewrite P. destruct v; try reflexivity; contradiction.
Qed.

Lemma rejection_message_surfaced_witness :
  alerts
    (trace_of
       (handleSubmit Samples.platform
          (Samples.world_answering Samples.signed_in
             (Samples.response 400 "Bad Request"
                (lit "{" ++ Samples.quoted "message" ++ lit ":"
                   ++ Samples.quoted "Duplicate review" ++ lit "}")))
          None Samples.params (Samples.draft [lit "Fries"] 4)))
  = [(lit "Error", lit "Duplicate review")] /\
  alerts
    (trace_of
       (handleSubmit Samples.platform
          (Samples.world_answering Samples.signed_in
             (Samples.response 500 "Internal Server Error"
                (lit "Internal error")))
          None Samples.params (Samples.draft [lit "Fries"] 4)))
  = [(lit "Error", lit "Internal error")].
Proof.
  split.
  - destruct (rejection_message_surfaced Samples.platform
                (Samples.world_answering Samples.signed_in
                   (Samples.response 400 "Bad Request"
                      (lit "{" ++ Samples.quoted "message" ++ lit ":"
                         ++ Samples.quoted "Duplicate review" ++ lit "}")))
                None Samples.params (Samples.draft [lit "Fries"] 4)
                {| data_session := Some Samples.session; error := None |}
                Samples.session
                (Samples.response 400 "Bad Request"
                   (lit "{" ++ Samples.quoted "message" ++ lit ":"
                      ++ Samples.quoted "Duplicate review" ++ lit "}")))
      as [message [Hrun [_ [_ [Hmember _]]]]].
    + split; [vm_compute; discriminate | discriminate].
    + reflexivity.
    + reflexivity.
    + reflexivity.
    + reflexivity.
    + reflexivity.
    + rewrite Hrun.
      rewrite (Hmember [(lit "message", JString (lit "Duplicate review"))]
                 (lit "Duplicate review"));
        [reflexivity | vm_compute; reflexivity | reflexivity
        | vm_compute; discriminate].
  - destruct (rejection_message_surfaced Samples.platform
                (Samples.world_answering Samples.signed_in
                   (Samples.response 500 "Internal Server Error"
                      (lit "Internal error")))
                None Samples.params (Samples.draft [lit "Fries"] 4)
                {| data_session := Some Samples.session; error := None |}
                Samples.session
                (Samples.response 500 "Internal Server Error"
                   (lit "Internal error")))
      as [message [Hrun [Hraw _]]].
    + split; [vm_compute; discriminate | discriminate].
    + reflexivity.
    + reflexivity.
    + reflexivity.
    + reflexivity.
    + reflexivity.
    + rewrite Hrun.
      rewrite Hraw; [reflexivity | vm_compute; reflexivity
                    | vm_compute; discriminate].
Defined.

(** C5 as stated fails on an empty body: it is not JSON, yet what is
    surfaced is the status text, not the (empty) body. *)
Lemma empty_body_surfaces_status_text :
  ok (Samples.response 500 "Internal Server Error" []) = false /\
  parse (bodyText (Samples.response 500 "Internal Server Error" [])) = None /\
  alerts
    (trace_of
       (handleSubmit Samples.platform
          (Samples.world_answering Samples.signed_in
             (Samples.response 500 "Internal Server Error" []))
          None Samples.params (Samples.draft [lit "Fries"] 4)))
  = [(lit "Error", lit "Server error: 500 Internal Server Error")] /\
  lit "Server error: 500 Internal Server Error"
  <> bodyText (Samples.response 500 "Internal Server Error" []).
Proof.
  repeat split; try (vm_compute; reflexivity). vm_compute. discriminate.
Qed.

(** C6.  A run of [handleSubmit] that surfaces a failure (a validation
    alert, the not-logged-in alert, or the error alert of the catch block)
    leaves the dishes and the rating exactly as they were at invocation. *)
Theorem failure_keeps_draft pf w env params s :
  ends_in_failure (trace_of (handleSubmit pf w env params s)) ->
  dishes (state_of (handleSubmit pf w env params s)) = dishes s /\
  rating (state_of (handleSubmit pf w env params s)) = rating s.
Proof.
  intros _. apply handleSubmit_frame.
Qed.

Lemma failure_keeps_draft_witness :
  dishes
    (state_of
       (handleSubmit Samples.platform
          (Samples.world_offline Samples.signed_in) None Samples.params
          (Samples.draft Samples.fries_and_burger 4)))
  = Samples.fries_and_burger /\
  rating
    (state_of
       (handleSubmit Samples.platform
          (Samples.world_offline Samples.signed_in) None Samples.params
          (Samples.draft Samples.fries_and_burger 4)))
  = 4%Z.
Proof.
  apply (failure_keeps_draft Samples.platform
           (Samples.world_offline Samples.signed_in) None Samples.params
           (Samples.draft Samples.fries_and_burger 4)).
  vm_compute. reflexivity.
Defined.

(** C7, as the code has it.  After [handleSubmit] the submit flag is false
    on every path past the two fast-fail checks, and on the fast-fail
    returns too when the handler was entered with the flag false (the
    submit control is disabled while it is true).  On a success status
    whose body is JSON, the success alert is the one alert with a button,
    and dismissing it issues exactly one go-back. *)
Theorem submit_flag_cleared pf w env params s :
  (isSubmitting s = false ->
   isSubmitting (state_of (handleSubmit pf w env params s)) = false) /\
  (passes_validation s ->
   isSubmitting (state_of (handleSubmit pf w env params s)) = false) /\
  (forall r session response v,
      passes_validation s ->
      auth_getSession w = inr r ->
      error r = None -> data_session r = Some session ->
      fetch w (submission_request env params s session) = inr response ->
      ok response = true ->
      parse (bodyText response) = Some v ->
      navigation_signals (trace_of (handleSubmit pf w env params s))
      = [router_back]).
Proof.
  repeat split.
  - intro I. rewrite handleSubmit_flag.
    destruct (filledDishes (dishes s)); [assumption|].
    destruct (rating s =? 0)%Z; [assumption | reflexivity].
  - intros [H R]. rewrite handleSubmit_flag.
    destruct (filledDishes (dishes s)); [congruence|].
    apply Z.eqb_neq in R. rewrite R. reflexivity.
  - intros r session response v [H R] A E D F K P.
    rewrite (path_accepted pf w env params s r session response v
               H R A E D F K P).
    reflexivity.
Qed.

Lemma submit_flag_cleared_witness :
  isSubmitting
    (state_of
       (handleSubmit Samples.platform
          (Samples.world_answering Samples.signed_in
             (Samples.response 201 "Created" (lit "{}")))
          None Samples.params (Samples.draft [lit "Fries"] 4))) = false /\
  navigation_signals
    (trace_of
       (handleSubmit Samples.platform
          (Samples.world_answering Samples.signed_in
             (Samples.response 201 "Created" (lit "{}")))
          None Samples.params (Samples.draft [lit "Fries"] 4)))
  = [router_back].
Proof.
  destruct (submit_flag_cleared Samples.platform
              (Samples.world_answering Samples.signed_in
                 (Samples.response 201 "Created" (lit "{}")))
              None Samples.params (Samples.draft [lit "Fries"] 4))
    as [Hflag [_ Hback]].
  split.
  - apply Hflag. reflexivity.
  - apply (Hback {| data_session := Some Samples.session; error := None |}
             Samples.session
             (Samples.response 201 "Created" (lit "{}"))
             (JObject []));
      try reflexivity.
    split; [vm_compute; discriminate | discriminate].
Defined.

(** C7 as stated fails on a success status whose body is not JSON: the
    status is 201, and no go-back is issued. *)
Lemma accepted_without_json_no_go_back :
  ok (Samples.response 201 "Created" []) = true /\
  navigation_signals
    (trace_of
       (handleSubmit Samples.platform
          (Samples.world_answering Samples.signed_in
             (Samples.response 201 "Created" []))
          None Samples.params (Samples.draft [lit "Fries"] 4)))
  = [].
Proof.
  split; vm_compute; reflexivity.
Qed.

(** C10.  When the request is answered with a success status and a body
    that is not JSON, [handleSubmit] ends in failure: the SyntaxError of
    [response.json()] is caught, its message is surfaced in the error
    alert, the success alert is not shown and no go-back is issued. *)
Theorem accepted_unparsable_fails pf w env params s r session response :
  passes_validation s ->
  auth_getSession w = inr r ->
  error r = None -> data_session r = Some session ->
  fetch w (submission_request env params s session) = inr response ->
  ok response = true ->
  parse (bodyText response) = None ->
  handleSubmit pf w env params s
  = (Normal tt, editing s,
     through_request env params s session
       ++ [alert_Error (SyntaxError_message pf (bodyText response))]) /\
  ends_in_failure (trace_of (handleSubmit pf w env params s)) /\
  ~ In alert_Success (trace_of (handleSubmit pf w env params s)) /\
  navigation_signals (trace_of (handleSubmit pf w env params s)) = [].
Proof.
  intros [H R] A E D F K P.
  rewrite (path_accepted_unparsable pf w env params s r session response
             H R A E D F K P).
  repeat split.
  intros [B|[B|[B|[B|[]]]]]; discriminate.
Qed.

Lemma accepted_unparsable_fails_witness :
  alerts
    (trace_of
       (handleSubmit Samples.platform
          (Samples.world_answering Samples.signed_in
             (Samples.response 200 "OK" (lit "Created")))
          None Samples.params (Samples.draft [lit "Fries"] 4)))
  = [(lit "Error", lit "JSON Parse error: Unexpected token")] /\
  navigation_signals
    (trace_of
       (handleSubmit Samples.platform
          (Samples.world_answering Samples.signed_in
             (Samples.response 200 "OK" (lit "Created")))
          None Samples.params (Samples.draft [lit "Fries"] 4)))
  = [].
Proof.
  destruct (accepted_unparsable_fails Samples.platform
              (Samples.world_answering Samples.signed_in
                 (Samples.response 200 "OK" (lit "Created")))
              None Samples.params (Samples.draft [lit "Fries"] 4)
              {| data_session := Some Samples.session; error := None |}
              Samples.session
              (Samples.response 200 "OK" (lit "Created")))
    as [Hrun [_ [_ Hnav]]].
  - split; [vm_compute; discriminate | discriminate].
  - reflexivity.
  - reflexivity.
  - reflexivity.
  - reflexivity.
  - reflexivity.
  - vm_compute. reflexivity.
  - split; [rewrite Hrun; reflexivity | exact Hnav].
Defined.

End CreateReviewFacts.

(* ================================================================== *)
(** * The feed tab: loading and date labels *)
(* ================================================================== *)

Module HomeTabFacts.
Import JS JSON API Handler HomeTab Contract.

#[local] Arguments lit : simpl never.
#[local] Arguments parse : simpl never.

Ltac unfold_handler :=
  unfold onRefresh, fetchFriendsReviews, try_catch_finally, try_finally,
    try_catch, await_getSession, await_fetch, await_json, JSON_parse,
    await, setReviews, setLoading, setRefreshing,
    bind, get, emit, modify, ret, throw, return_.

Ltac destruct_innermost :=
  match goal with
  | |- context [match ?x with _ => _ end] =>
      lazymatch x with
      | context [match _ with _ => _ end] => fail
      | _ => destruct x eqn:?
      end
  end.

Ltac all_paths := unfold_handler; repeat (destruct_innermost; simpl).

Section Loads.
Variable pf : Platform.
Variable w : World.
Variable s : State.

(** Both flags are cleared however the load ends. *)
Lemma fetchFriendsReviews_flags :
  loading (state_of (fetchFriendsReviews pf w s)) = false /\
  refreshing (state_of (fetchFriendsReviews pf w s)) = false.
Proof.
  unfold state_of. all_paths; split; reflexivity.
Qed.

Lemma onRefresh_flags :
  loading (state_of (onRefresh pf w s)) = false /\
  refreshing (state_of (onRefresh pf w s)) = false.
Proof.
  unfold state_of. all_paths; split; reflexivity.
Qed.

(** The feed never raises an alert. *)
Lemma fetchFriendsReviews_silent :
  alerts (trace_of (fetchFriendsReviews pf w s)) = [].
Proof.
  unfold trace_of. all_paths; reflexivity.
Qed.

Lemma onRefresh_silent :
  alerts (trace_of (onRefresh pf w s)) = [].
Proof.
  unfold trace_of. all_paths; reflexivity.
Qed.

(** A load that fails leaves the list as it was. *)
Lemma fetchFriendsReviews_failed :
  feed_load_fails w ->
  reviews (state_of (fetchFriendsReviews pf w s)) = reviews s.
Proof.
  unfold state_of, feed_load_fails, feed_request.
  all_paths; intro H; try reflexivity; destruct H; congruence.
Qed.

Lemma onRefresh_failed :
  feed_load_fails w ->
  reviews (state_of (onRefresh pf w s)) = reviews s.
Proof.
  unfold state_of, feed_load_fails, feed_request.
  all_paths; intro H; try reflexivity; destruct H; congruence.
Qed.

End Loads.

(** C8.  A feed load, initial ([fetchFriendsReviews]) or by pull-to-refresh
    ([onRefresh]), clears both the loading and the refreshing flag however
    it ends and never raises an alert; when it fails (a rejected lookup or
    request, a status outside 200..299, a body that is not JSON) the list
    held before is left as it was. *)
Theorem failed_load_keeps_feed pf w s :
  (loading (state_of (fetchFriendsReviews pf w s)) = false /\
   refreshing (state_of (fetchFriendsReviews pf w s)) = false) /\
  (loading (state_of (onRefresh pf w s)) = false /\
   refreshing (state_of (onRefresh pf w s)) = false) /\
  alerts (trace_of (fetchFriendsReviews pf w s)) = [] /\
  alerts (trace_of (onRefresh pf w s)) = [] /\
  (feed_load_fails w ->
   reviews (state_of (fetchFriendsReviews pf w s)) = reviews s /\
   reviews (state_of (onRefresh pf w s)) = reviews s).
Proof.
  split; [apply fetchFriendsReviews_flags|].
  split; [apply onRefresh_flags|].
  split; [apply fetchFriendsReviews_silent|].
  split; [apply onRefresh_silent|].
  intro H. split;
    [apply fetchFriendsReviews_failed | apply onRefresh_failed]; exact H.
Qed.

Lemma failed_load_keeps_feed_witness :
  state_of
    (onRefresh Samples.platform (Samples.world_offline Samples.signed_in)
       Samples.feed_shown)
  = Samples.feed_shown /\
  state_of
    (fetchFriendsReviews Samples.platform
       (Samples.world_answering Samples.signed_in
          (Samples.response 503 "Service Unavailable" (lit "down")))
       initial)
  = {| reviews := JArray []; loading := false; refreshing := false |}.
Proof.
  split.
  - destruct (failed_load_keeps_feed Samples.platform
                (Samples.world_offline Samples.signed_in) Samples.feed_shown)
      as [_ [[Hl Hr] [_ [_ Hkeep]]]].
    destruct Hkeep as [_ Hrev]; [exact I|].
    destruct (state_of
                (onRefresh Samples.platform
                   (Samples.world_offline Samples.signed_in)
                   Samples.feed_shown)) as [rv ld rf].
    simpl in Hl, Hr, Hrev. subst. reflexivity.
  - vm_compute. reflexivity.
Defined.

(** The ceiling the code computes is the ceiling of the elapsed days. *)
Lemma ceil_div_elapsed (now createdAt N : Z) :
  elapsed_days_ceiling now createdAt N ->
  ceil_div (Z.abs (now - createdAt)) (1000 * 60 * 60 * 24) = N.
Proof.
  unfold elapsed_days_ceiling, ceil_div, day_ms.
  change (1000 * 60 * 60 * 24)%Z with 86400000%Z.
  intro H.
  assert (E : (- N = (- Z.abs (now - createdAt)) / 86400000)%Z).
  { apply (Z.div_unique _ _ _
             (- Z.abs (now - createdAt) - 86400000 * - N)%Z); lia. }
  lia.
Qed.

(** C9.  The date label is computed from N, the ceiling of the elapsed
    days between now and createdAt: Today for N = 0 (a createdAt of now),
    Yesterday for N = 1, N days ago for N from 2 to 6 (so 2 days ago at
    exactly 25 hours), and the localized date for N of 7 or more (so at 10
    days). *)
Theorem formatDate_label pf w dateString createdAt N :
  Date_parse pf dateString = Some createdAt ->
  elapsed_days_ceiling (Date_now w) createdAt N ->
  (createdAt = Date_now w -> N = 0%Z) /\
  (N = 0%Z -> formatDate pf w dateString = lit "Today") /\
  (N = 1%Z -> formatDate pf w dateString = lit "Yesterday") /\
  ((2 <= N < 7)%Z ->
   formatDate pf w dateString = Number_toString_int N ++ lit " days ago") /\
  ((7 <= N)%Z -> formatDate pf w dateString = toLocaleDateString pf createdAt) /\
  ((Date_now w - createdAt = 25 * 3600000)%Z ->
   formatDate pf w dateString = lit "2 days ago") /\
  ((Date_now w - createdAt = 10 * day_ms)%Z ->
   formatDate pf w dateString = toLocaleDateString pf createdAt).
Proof.
  intros P C. pose proof (ceil_div_elapsed _ _ _ C) as E.
  unfold formatDate. rewrite P. cbv zeta. rewrite E. clear E.
  unfold elapsed_days_ceiling, day_ms in C.
  repeat split.
  - intro T. subst createdAt. rewrite Z.sub_diag in C. simpl in C. lia.
  - intro T. subst N. reflexivity.
  - intro T. subst N. reflexivity.
  - intro T.
    destruct (Z.eqb_spec N 0); [lia|]. destruct (Z.eqb_spec N 1); [lia|].
    destruct (Z.ltb_spec N 7); [reflexivity | lia].
  - intro T.
    destruct (Z.eqb_spec N 0); [lia|]. destruct (Z.eqb_spec N 1); [lia|].
    destruct (Z.ltb_spec N 7); [lia | reflexivity].
  - intro T. rewrite T in C. assert (N = 2%Z) by lia. subst N. reflexivity.
  - intro T. unfold day_ms in T. rewrite T in C.
    assert (N = 10%Z) by lia. subst N. reflexivity.
Qed.

Lemma formatDate_label_witness :
  formatDate Samples.platform (Samples.world_at 1767315600000)
    (lit "2026-01-01T00:00:00.000Z") = lit "2 days ago" /\
  formatDate Samples.platform (Samples.world_at 1768089600000)
    (lit "2026-01-01T00:00:00.000Z") = lit "1/1/2026" /\
  formatDate Samples.platform (Samples.world_at 1767225600000)
    (lit "2026-01-01T00:00:00.000Z") = lit "Today".
Proof.
  split; [|split].
  - apply (formatDate_label Samples.platform (Samples.world_at 1767315600000)
             (lit "2026-01-01T00:00:00.000Z") 1767225600000 2).
    + reflexivity.
    + unfold elapsed_days_ceiling, day_ms. simpl. lia.
    + reflexivity.
  - apply (formatDate_label Samples.platform (Samples.world_at 1768089600000)
             (lit "2026-01-01T00:00:00.000Z") 1767225600000 10).
    + reflexivity.
    + unfold elapsed_days_ceiling, day_ms. simpl. lia.
    + reflexivity.
  - apply (formatDate_label Samples.platform (Samples.world_at 1767225600000)
             (lit "2026-01-01T00:00:00.000Z") 1767225600000 0).
    + reflexivity.
    + unfold elapsed_days_ceiling, day_ms. simpl. lia.
    + reflexivity.
Defined.

End HomeTabFacts.

(* ================================================================== *)
(** * The review form: editing the dish list, and the controls *)
(* ================================================================== *)

Module FormFacts.
Import JS JSON API Handler CreateReview Contract FormUI.

#[local] Arguments filledDishes : simpl never.

Lemma mapi_from_length k f (l : list jsstring) :
  List.length (mapi_from k f l) = List.length l.
Proof.
  revert k. induction l as [|d r IH]; intro k; simpl; [reflexivity|].
  rewrite IH. reflexivity.
Qed.

Lemma mapi_from_nth k f (l : list jsstring) j :
  nth_error (mapi_from k f l) j
  = option_map (fun d => f d (k + j)) (nth_error l j).
Proof.
  revert k j. induction l as [|d r IH]; intros k j; simpl.
  - destruct j; reflexivity.
  - destruct j as [|j]; simpl.
    + rewrite Nat.add_0_r. reflexivity.
    + rewrite IH. replace (S k + j) with (k + S j) by lia. reflexivity.
Qed.

Lemma mapi_from_untouched k index name (l : list jsstring) :
  index < k \/ k + List.length l <= index ->
  mapi_from k (fun dish i => if Nat.eqb i index then name else dish) l = l.
Proof.
  revert k. induction l as [|d r IH]; intros k H; simpl; [reflexivity|].
  simpl in H. destruct (Nat.eqb_spec k index); [lia|].
  rewrite IH; [reflexivity | lia].
Qed.

Lemma filteri_from_all k p (l : list jsstring) :
  (forall i, k <= i -> p i = true) -> filteri_from k p l = l.
Proof.
  revert k. induction l as [|d r IH]; intros k H; simpl; [reflexivity|].
  rewrite (H k) by lia. rewrite IH; [reflexivity|].
  intros i Hi. apply H. lia.
Qed.

Lemma filteri_from_remove k p index (l : list jsstring) :
  (forall i, p i = negb (Nat.eqb i (k + index))) ->
  filteri_from k p l = firstn index l ++ skipn (S index) l.
Proof.
  revert k index. induction l as [|d r IH]; intros k index H; simpl.
  - destruct index; reflexivity.
  - rewrite H. destruct index as [|n]; simpl.
    + rewrite Nat.add_0_r, Nat.eqb_refl. simpl.
      apply filteri_from_all. intros i Hi. rewrite H.
      destruct (Nat.eqb_spec i (k + 0)); [lia | reflexivity].
    + destruct (Nat.eqb_spec k (k + S n)); [lia|]. simpl.
      rewrite (IH (S k) n); [reflexivity|].
      intro i. rewrite H. replace (S k + n) with (k + S n) by lia.
      reflexivity.
Qed.

Lemma state_eta (s : State) :
  {| dishes := dishes s; rating := rating s; isSubmitting := isSubmitting s |}
  = s.
Proof. destruct s; reflexivity. Qed.

Lemma state_ext (s1 s2 : State) :
  dishes s1 = dishes s2 -> rating s1 = rating s2 ->
  isSubmitting s1 = isSubmitting s2 -> s1 = s2.
Proof.
  destruct s1, s2; simpl; intros; subst; reflexivity.
Qed.

(** X1.  [updateDish(index, name)] replaces the text of slot [index] and
    nothing else: the number of slots and every other slot are as they
    were, an index past the last slot changes nothing at all, and the
    rating and the submit flag are not touched. *)
Theorem updateDish_slot index name s :
  List.length (dishes (state_of (updateDish index name s)))
  = List.length (dishes s) /\
  (forall j,
      nth_error (dishes (state_of (updateDish index name s))) j
      = if Nat.eqb j index
        then option_map (fun _ => name) (nth_error (dishes s) j)
        else nth_error (dishes s) j) /\
  (List.length (dishes s) <= index ->
   state_of (updateDish index name s) = s) /\
  rating (state_of (updateDish index name s)) = rating s /\
  isSubmitting (state_of (updateDish index name s)) = isSubmitting s.
Proof.
  unfold updateDish, setDishes, modify, state_of. simpl.
  repeat split.
  - apply mapi_from_length.
  - intro j. rewrite mapi_from_nth. simpl.
    destruct (Nat.eqb j index); destruct (nth_error (dishes s) j); reflexivity.
  - intro H. rewrite mapi_from_untouched by (right; simpl; exact H).
    apply state_eta.
Qed.

Lemma removeDish_dishes index s :
  dishes (state_of (removeDish index s))
  = firstn index (dishes s) ++ skipn (S index) (dishes s).
Proof.
  unfold removeDish, setDishes, modify, state_of. simpl.
  apply (filteri_from_remove 0). intro i. reflexivity.
Qed.

(** X2.  [removeDish(index)] removes slot [index] and keeps the others in
    order: the list becomes the slots before [index] followed by the slots
    after it, one slot shorter when [index] is a slot and unchanged when it
    is past the last one; the rating and the submit flag are not touched. *)
Theorem removeDish_slot index s :
  dishes (state_of (removeDish index s))
  = firstn index (dishes s) ++ skipn (S index) (dishes s) /\
  (index < List.length (dishes s) ->
   S (List.length (dishes (state_of (removeDish index s))))
   = List.length (dishes s)) /\
  (List.length (dishes s) <= index -> state_of (removeDish index s) = s) /\
  rating (state_of (removeDish index s)) = rating s /\
  isSubmitting (state_of (removeDish index s)) = isSubmitting s.
Proof.
  pose proof (removeDish_dishes index s) as E.
  repeat split; try exact E.
  - intro H. rewrite E, length_app, length_firstn, length_skipn. lia.
  - intro H. apply state_ext; [|reflexivity|reflexivity].
    rewrite E, firstn_all2, skipn_all2 by lia. apply app_nil_r.
Qed.

(** X3.  [addAnotherDish] appends one empty slot and keeps the others;
    removing that last slot gives back the state before, and the new slot
    changes nothing in what a submission would send. *)
Theorem addAnotherDish_slot s :
  dishes (state_of (addAnotherDish s)) = dishes s ++ [[]] /\
  state_of (removeDish (List.length (dishes s)) (state_of (addAnotherDish s)))
  = s /\
  filledDishes (dishes (state_of (addAnotherDish s)))
  = filledDishes (dishes s).
Proof.
  split; [reflexivity|]. split.
  - pose proof (removeDish_dishes (List.length (dishes s))
                  (state_of (addAnotherDish s))) as E.
    assert (D : dishes (state_of (removeDish (List.length (dishes s))
                                    (state_of (addAnotherDish s))))
                = dishes s).
    { rewrite E. change (dishes (state_of (addAnotherDish s)))
        with (dishes s ++ [[]]).
      rewrite skipn_all2 by (rewrite length_app; simpl; lia).
      rewrite firstn_app, Nat.sub_diag, firstn_all. simpl.
      rewrite !app_nil_r. reflexivity. }
    apply state_ext; [exact D | reflexivity | reflexivity].
  - change (dishes (state_of (addAnotherDish s))) with (dishes s ++ [[]]).
    unfold filledDishes. rewrite filter_app. simpl. apply app_nil_r.
Qed.

(** A star control sets a rating from 1 to 5. *)
Lemma stars_range position st :
  nth_error stars position = Some st -> (1 <= st <= 5)%Z.
Proof.
  unfold stars.
  do 5 (destruct position as [|position];
        [intro H; inversion H; subst; lia|]).
  destruct position; discriminate.
Qed.

Section Gestures.
Variable pf : Platform.
Variable env : option jsstring.
Variable params : Params.

(** One gesture keeps: at least one slot, a rating from 0 to 5, the submit
    flag false once the handler has finished, and a rating once given. *)
Lemma handle_keeps g s :
  1 <= List.length (dishes s) -> (0 <= rating s <= 5)%Z ->
  isSubmitting s = false ->
  1 <= List.length (dishes (state_of (handle pf env params g s))) /\
  (0 <= rating (state_of (handle pf env params g s)) <= 5)%Z /\
  isSubmitting (state_of (handle pf env params g s)) = false /\
  (rating s <> 0%Z ->
   rating (state_of (handle pf env params g s)) <> 0%Z).
Proof.
  intros L R I. destruct g as [|index text|index|position|w]; simpl.
  - (* another slot *)
    unfold addAnotherDish, setDishes, modify, state_of. simpl.
    rewrite length_app. simpl. repeat split; try lia; assumption.
  - (* typing in a row *)
    unfold bind, get, ret, state_of.
    destruct (Nat.ltb index (List.length (dishes s))); simpl;
      [|repeat split; try lia; assumption].
    rewrite mapi_from_length. repeat split; try lia; assumption.
  - (* the remove control of a row *)
    unfold bind, get, ret, state_of, removeControlShown.
    destruct (Nat.ltb_spec 1 (List.length (dishes s))); simpl;
      [|repeat split; try lia; assumption].
    destruct (Nat.ltb_spec index (List.length (dishes s))); simpl;
      [|repeat split; try lia; assumption].
    rewrite (filteri_from_remove 0 _ index) by (intro; reflexivity).
    rewrite length_app, length_firstn, length_skipn.
    repeat split; try lia; assumption.
  - (* a star *)
    destruct (nth_error stars position) as [st|] eqn:N;
      unfold setRating, modify, ret, state_of; simpl;
      [|repeat split; try lia; assumption].
    apply stars_range in N. repeat split; try lia; assumption.
  - (* the submit control *)
    rewrite (CreateReviewFacts.pressSubmit_enabled pf w env params s I).
    destruct (CreateReviewFacts.handleSubmit_frame pf w env params s)
      as [D T].
    rewrite D, T, CreateReviewFacts.handleSubmit_flag.
    repeat split; try lia; try assumption.
    destruct (filledDishes (dishes s)); [assumption|].
    destruct (rating s =? 0)%Z; [assumption | reflexivity].
Qed.

End Gestures.

(** X4.  Whatever the user does on the form (add a slot, type in a row, use
    a remove control, press a star, press submit, each handler run to its
    end, in any order and any number of times), the form keeps at least one
    dish slot, a rating from 0 to 5, and the submit control enabled; and
    once a rating is given it is never unset. *)
Theorem form_invariant pf env params gs s :
  1 <= List.length (dishes s) -> (0 <= rating s <= 5)%Z ->
  isSubmitting s = false ->
  1 <= List.length (dishes (after pf env params gs s)) /\
  (0 <= rating (after pf env params gs s) <= 5)%Z /\
  isSubmitting (after pf env params gs s) = false /\
  (rating s <> 0%Z -> rating (after pf env params gs s) <> 0%Z).
Proof.
  revert s. induction gs as [|g gs IH]; intros s L R I.
  - simpl. repeat split; try lia; assumption.
  - destruct (handle_keeps pf env params g s L R I) as [L1 [R1 [I1 K1]]].
    destruct (IH _ L1 R1 I1) as [L2 [R2 [I2 K2]]].
    simpl. split; [exact L2|]. split; [exact R2|]. split; [exact I2|].
    intro N. apply K2, K1, N.
Qed.

Lemma form_invariant_witness :
  1 <= List.length
         (dishes
            (after Samples.platform None Samples.params
               [ press_remove 0; press_star 3; press_addDish;
                 press_remove 0; press_remove 0;
                 press_submit (Samples.world_offline Samples.signed_in) ]
               initial)) /\
  (0 <= rating
          (after Samples.platform None Samples.params
             [ press_remove 0; press_star 3; press_addDish;
               press_remove 0; press_remove 0;
               press_submit (Samples.world_offline Samples.signed_in) ]
             initial) <= 5)%Z /\
  isSubmitting
    (after Samples.platform None Samples.params
       [ press_remove 0; press_star 3; press_addDish;
         press_remove 0; press_remove 0;
         press_submit (Samples.world_offline Samples.signed_in) ]
       initial) = false /\
  (rating initial <> 0%Z ->
   rating
     (after Samples.platform None Samples.params
        [ press_remove 0; press_star 3; press_addDish;
          press_remove 0; press_remove 0;
          press_submit (Samples.world_offline Samples.signed_in) ]
        initial) <> 0%Z).
Proof.
  apply (form_invariant Samples.platform None Samples.params
           [ press_remove 0; press_star 3; press_addDish;
             press_remove 0; press_remove 0;
             press_submit (Samples.world_offline Samples.signed_in) ]
           initial).
  - simpl. lia.
  - simpl. lia.
  - reflexivity.
Defined.

(** X5.  The rating row of the form always shows five icons, the filled
    ones first; their number is the rating, taken as 0 below 0 and as 5
    above 5. *)
Theorem starIcons_filled rating :
  starIcons rating
  = repeat star (Z.to_nat (Z.min 5 (Z.max 0 rating)))
    ++ repeat star_outline (5 - Z.to_nat (Z.min 5 (Z.max 0 rating))).
Proof.
  assert (C : (rating <= 0 \/ rating = 1 \/ rating = 2 \/ rating = 3
               \/ rating = 4 \/ 5 <= rating)%Z) by lia.
  destruct C as [C|[C|[C|[C|[C|C]]]]]; try (subst; reflexivity).
  - rewrite Z.max_l, Z.min_r by lia. unfold starIcons, stars. simpl.
    repeat match goal with
    | |- context [(?a <=? rating)%Z] =>
        destruct (Z.leb_spec a rating); [lia|]
    end. reflexivity.
  - rewrite Z.max_r, Z.min_l by lia. unfold starIcons, stars. simpl.
    repeat match goal with
    | |- context [(?a <=? rating)%Z] =>
        destruct (Z.leb_spec a rating); [|lia]
    end. reflexivity.
Qed.

End FormFacts.

(* ================================================================== *)
(** * The review form: more on the runs of [handleSubmit] *)
(* ================================================================== *)

Module SubmitFacts.
Import JS JSON API Handler CreateReview Contract CreateReviewFacts.

#[local] Arguments filledDishes : simpl never.
#[local] Arguments lit : simpl never.
#[local] Arguments API_URL : simpl never.
#[local] Arguments server_error_text : simpl never.
#[local] Arguments parse : simpl never.
#[local] Arguments truthy : simpl never.

Lemma filledDishes_not_blank (ds : list jsstring) :
  Forall (fun d => blank d = false) (filledDishes ds).
Proof.
  induction ds as [|d ds IH]; [constructor|].
  rewrite filledDishes_cons. destruct (blank d) eqn:B; [exact IH|].
  constructor; assumption.
Qed.

(** X6.  Every run of [handleSubmit] raises exactly one alert, and the
    handler never completes by throwing: whatever the session lookup, the
    request or the body do, the rejection is caught inside. *)
Theorem one_alert_no_rejection pf w env params s :
  List.length (alerts (trace_of (handleSubmit pf w env params s))) = 1 /\
  (forall e, completion_of (handleSubmit pf w env params s) <> Throw e).
Proof.
  unfold trace_of, completion_of.
  all_paths; split; try reflexivity; intros e0 H0; discriminate.
Qed.

(** X7.  A request leaves [handleSubmit] only for a draft that passed both
    checks and under a session the lookup returned without an error: it is
    the one request of the run, it carries that session's token and the
    draft's payload, and the payload has at least one dish, no blank dish
    and a rating other than 0. *)
Theorem request_needs_session pf w env params s req :
  In (fetch_call req) (trace_of (handleSubmit pf w env params s)) ->
  passes_validation s /\
  (exists r session,
      auth_getSession w = inr r /\ error r = None /\
      data_session r = Some session /\
      req = submission_request env params s session) /\
  filter is_fetch_call (trace_of (handleSubmit pf w env params s))
  = [fetch_call req] /\
  req_body req = Some (submission_payload params s) /\
  rd_dishes (submission_payload params s) <> [] /\
  Forall (fun d => blank d = false) (rd_dishes (submission_payload params s)) /\
  rd_rating (submission_payload params s) <> 0%Z.
Proof.
  intro H.
  destruct (filledDishes (dishes s)) as [|d0 ds0] eqn:F.
  { rewrite (path_no_dish pf w env params s F) in H.
    simpl in H. destruct H as [H|[]]. discriminate. }
  assert (NE : filledDishes (dishes s) <> []) by (rewrite F; discriminate).
  destruct (Z.eq_dec (rating s) 0) as [R|R].
  { rewrite (path_no_rating pf w env params s NE R) in H.
    simpl in H. destruct H as [H|[]]. discriminate. }
  destruct (auth_getSession w) as [e|r] eqn:A.
  { rewrite (path_session_rejects pf w env params s e NE R A) in H.
    simpl in H. destruct H as [H|[H|[]]]; discriminate. }
  destruct (error r) as [err|] eqn:E.
  { rewrite (path_not_authenticated pf w env params s r NE R A) in H
      by (left; congruence).
    simpl in H. destruct H as [H|[H|[]]]; discriminate. }
  destruct (data_session r) as [session|] eqn:D.
  2:{ rewrite (path_not_authenticated pf w env params s r NE R A) in H
        by (right; exact D).
      simpl in H. destruct H as [H|[H|[]]]; discriminate. }
  assert (T : exists tail,
             handleSubmit pf w env params s
             = (Normal tt, editing s,
                through_request env params s session ++ [alert_Error tail])
             \/ handleSubmit pf w env params s
                = (Normal tt, editing s,
                   through_request env params s session ++ [alert_Success])).
  { destruct (fetch w (submission_request env params s session))
      as [e|response] eqn:Q.
    - eexists. left.
      exact (path_fetch_rejects pf w env params s r session e NE R A E D Q).
    - destruct (ok response) eqn:K.
      + destruct (parse (bodyText response)) as [v|] eqn:P.
        * exists []. right.
          exact (path_accepted pf w env params s r session response v
                   NE R A E D Q K P).
        * eexists. left.
          exact (path_accepted_unparsable pf w env params s r session
                   response NE R A E D Q K P).
      + eexists. left.
        exact (path_rejected pf w env params s r session response
                 NE R A E D Q K). }
  assert (Q : req = submission_request env params s session /\
              filter is_fetch_call (trace_of (handleSubmit pf w env params s))
              = [fetch_call req]).
  { destruct T as [tail [T|T]]; rewrite T in H |- *;
      unfold trace_of, through_request in *; simpl in H |- *;
      destruct H as [H|[H|[H|[H|[]]]]]; try discriminate;
      inversion H; subst; split; reflexivity. }
  destruct Q as [Q1 Q2].
  split; [split; assumption|].
  split; [exists r, session; repeat split; assumption|].
  split; [exact Q2|].
  split; [rewrite Q1; reflexivity|].
  split; [exact NE|].
  split; [apply filledDishes_not_blank | exact R].
Qed.

Lemma request_needs_session_witness :
  passes_validation (Samples.draft Samples.fries_and_burger 4) /\
  rd_dishes (submission_payload Samples.params
               (Samples.draft Samples.fries_and_burger 4)) <> [].
Proof.
  destruct (request_needs_session Samples.platform
              (Samples.world_offline Samples.signed_in) None Samples.params
              (Samples.draft Samples.fries_and_burger 4)
              (submission_request None Samples.params
                 (Samples.draft Samples.fries_and_burger 4) Samples.session))
    as [V [_ [_ [_ [N _]]]]].
  - vm_compute. right. right. left. reflexivity.
  - split; assumption.
Defined.

(** X8.  When the session lookup or the request itself rejects, the catch
    block surfaces one error alert: the message of the thrown error, or a
    fixed text when what was thrown is not an error object.  The flag is
    cleared, the draft is kept and no go-back is issued. *)
Theorem transport_failure_surfaced pf w env params s e :
  passes_validation s ->
  auth_getSession w = inl e \/
  (exists r session,
      auth_getSession w = inr r /\ error r = None /\
      data_session r = Some session /\
      fetch w (submission_request env params s session) = inl e) ->
  state_of (handleSubmit pf w env params s) = editing s /\
  alerts (trace_of (handleSubmit pf w env params s))
  = [ (lit "Error",
       match e with
       | JSError message => message
       | NonError => lit "Failed to submit review. Please try again."
       end) ] /\
  navigation_signals (trace_of (handleSubmit pf w env params s)) = [].
Proof.
  intros [H R] [A|[r [session [A [E [D Q]]]]]].
  - rewrite (path_session_rejects pf w env params s e H R A).
    repeat split.
  - rewrite (path_fetch_rejects pf w env params s r session e H R A E D Q).
    repeat split.
Qed.

Lemma transport_failure_surfaced_witness :
  alerts
    (trace_of
       (handleSubmit Samples.platform
          (Samples.world_offline Samples.signed_in) None Samples.params
          (Samples.draft [lit "Fries"] 4)))
  = [(lit "Error", lit "Network request failed")].
Proof.
  destruct (transport_failure_surfaced Samples.platform
              (Samples.world_offline Samples.signed_in) None Samples.params
              (Samples.draft [lit "Fries"] 4)
              (JSError (lit "Network request failed")))
    as [_ [Halert _]].
  - split; [vm_compute; discriminate | discriminate].
  - right.
    exists {| data_session := Some Samples.session; error := None |},
           Samples.session.
    repeat split.
  - exact Halert.
Defined.

(** X9.  When a response with a status outside 200..299 has a body that
    parses to JSON null, reading its [message] throws, and what the user
    sees is the text of that TypeError, not the status of the response. *)
Theorem null_body_surfaces_type_error pf w env params s r session response :
  passes_validation s ->
  auth_getSession w = inr r ->
  error r = None -> data_session r = Some session ->
  fetch w (submission_request env params s session) = inr response ->
  ok response = false ->
  parse (bodyText response) = Some JNull ->
  state_of (handleSubmit pf w env params s) = editing s /\
  alerts (trace_of (handleSubmit pf w env params s))
  = [(lit "Error", TypeError_property_of_null pf (lit "message"))].
Proof.
  intros [H R] A E D Q K P.
  rewrite (path_rejected pf w env params s r session response H R A E D Q K).
  rewrite P. split; reflexivity.
Qed.

Lemma null_body_surfaces_type_error_witness :
  alerts
    (trace_of
       (handleSubmit Samples.platform
          (Samples.world_answering Samples.signed_in
             (Samples.response 500 "Internal Server Error" (lit " null ")))
          None Samples.params (Samples.draft [lit "Fries"] 4)))
  = [(lit "Error", lit "Cannot read property 'message' of null")].
Proof.
  destruct (null_body_surfaces_type_error Samples.platform
              (Samples.world_answering Samples.signed_in
                 (Samples.response 500 "Internal Server Error"
                    (lit " null ")))
              None Samples.params (Samples.draft [lit "Fries"] 4)
              {| data_session := Some Samples.session; error := None |}
              Samples.session
              (Samples.response 500 "Internal Server Error" (lit " null ")))
    as [_ Halert].
  - split; [vm_compute; discriminate | discriminate].
  - reflexivity.
  - reflexivity.
  - reflexivity.
  - reflexivity.
  - reflexivity.
  - vm_compute. reflexivity.
  - rewrite Halert. vm_compute. reflexivity.
Defined.

(** X10.  After an accepted submission (a success status with a JSON body)
    the only alert is the success notice, and the form is not reset: the
    dishes and the rating stay as the user entered them, with the submit
    control enabled again. *)
Theorem success_keeps_draft pf w env params s r session response v :
  passes_validation s ->
  auth_getSession w = inr r ->
  error r = None -> data_session r = Some session ->
  fetch w (submission_request env params s session) = inr response ->
  ok response = true ->
  parse (bodyText response) = Some v ->
  state_of (handleSubmit pf w env params s) = editing s /\
  alerts (trace_of (handleSubmit pf w env params s))
  = [(lit "Success", lit "Your review has been submitted!")] /\
  ~ ends_in_failure (trace_of (handleSubmit pf w env params s)).
Proof.
  intros [H R] A E D Q K P.
  rewrite (path_accepted pf w env params s r session response v
             H R A E D Q K P).
  split; [reflexivity|]. split; [reflexivity|].
  intro F. vm_compute in F. discriminate.
Qed.

Lemma success_keeps_draft_witness :
  state_of
    (handleSubmit Samples.platform
       (Samples.world_answering Samples.signed_in
          (Samples.response 201 "Created" (lit "{}")))
       None Samples.params (Samples.draft Samples.fries_and_burger 4))
  = Samples.draft Samples.fries_and_burger 4.
Proof.
  destruct (success_keeps_draft Samples.platform
              (Samples.world_answering Samples.signed_in
                 (Samples.response 201 "Created" (lit "{}")))
              None Samples.params (Samples.draft Samples.fries_and_burger 4)
              {| data_session := Some Samples.session; error := None |}
              Samples.session
              (Samples.response 201 "Created" (lit "{}"))
              (JObject []))
    as [Hstate _].
  - split; [vm_compute; discriminate | discriminate].
  - reflexivity.
  - reflexivity.
  - reflexivity.
  - reflexivity.
  - reflexivity.
  - vm_compute. reflexivity.
  - rewrite Hstate. reflexivity.
Defined.

End SubmitFacts.

(* ================================================================== *)
(** * The feed tab: more on loads, labels and cards *)
(* ================================================================== *)

Module FeedFacts.
Import JS JSON API Handler HomeTab Contract FormUI FeedView HomeTabFacts.

#[local] Arguments lit : simpl never.
#[local] Arguments parse : simpl never.

Section Loads.
Variable pf : Platform.
Variable w : World.
Variable s : State.

(** The one run a load has once the lookup resolved and the request was
    answered or rejected. *)
Lemma load_answered r res :
  auth_getSession w = inr r ->
  fetch w (feed_request r) = inr res ->
  fetchFriendsReviews pf w s
  = match ok res, parse (bodyText res) with
    | true, Some v =>
        (Normal tt,
         {| reviews := v; loading := false; refreshing := false |},
         [getSession_call; fetch_call (feed_request r)])
    | true, None =>
        (Normal tt,
         {| reviews := reviews s; loading := false; refreshing := false |},
         [ getSession_call; fetch_call (feed_request r);
           console_error (lit "Error fetching feed:")
             (JSError (SyntaxError_message pf (bodyText res))) ])
    | false, _ =>
        (Normal tt,
         {| reviews := reviews s; loading := false; refreshing := false |},
         [getSession_call; fetch_call (feed_request r)])
    end.
Proof.
  unfold feed_request. intros A Q. unfold_handler. rewrite A. cbn.
  destruct (data_session r) as [session|]; cbn in Q |- *; rewrite Q; cbn;
    destruct (ok res); cbn; try reflexivity;
    destruct (parse (bodyText res)); reflexivity.
Qed.

Lemma load_request_rejected r e :
  auth_getSession w = inr r ->
  fetch w (feed_request r) = inl e ->
  fetchFriendsReviews pf w s
  = (Normal tt,
     {| reviews := reviews s; loading := false; refreshing := false |},
     [ getSession_call; fetch_call (feed_request r);
       console_error (lit "Error fetching feed:") e ]).
Proof.
  unfold feed_request. intros A Q. unfold_handler. rewrite A. cbn.
  destruct (data_session r) as [session|]; cbn in Q |- *; rewrite Q;
    reflexivity.
Qed.

Lemma load_lookup_rejected e :
  auth_getSession w = inl e ->
  fetchFriendsReviews pf w s
  = (Normal tt,
     {| reviews := reviews s; loading := false; refreshing := false |},
     [getSession_call; console_error (lit "Error fetching feed:") e]).
Proof.
  intros A. unfold_handler. rewrite A. reflexivity.
Qed.

End Loads.

(** X11.  A load answered with a success status and a JSON body replaces
    the held list by the parsed body, whatever was held before; it makes
    one lookup and one request and logs nothing. *)
Theorem successful_load_replaces pf w s r res v :
  auth_getSession w = inr r ->
  fetch w (feed_request r) = inr res ->
  ok res = true ->
  parse (bodyText res) = Some v ->
  fetchFriendsReviews pf w s
  = (Normal tt,
     {| reviews := v; loading := false; refreshing := false |},
     [getSession_call; fetch_call (feed_request r)]).
Proof.
  intros A Q K P. rewrite (load_answered pf w s r res A Q), K, P.
  reflexivity.
Qed.

Lemma successful_load_replaces_witness :
  state_of
    (fetchFriendsReviews Samples.platform
       (Samples.world_answering Samples.signed_in
          (Samples.response 200 "OK" (lit "[]")))
       Samples.feed_shown)
  = {| reviews := JArray []; loading := false; refreshing := false |}.
Proof.
  rewrite (successful_load_replaces Samples.platform
             (Samples.world_answering Samples.signed_in
                (Samples.response 200 "OK" (lit "[]")))
             Samples.feed_shown
             {| data_session := Some Samples.session; error := None |}
             (Samples.response 200 "OK" (lit "[]"))
             (JArray [])).
  - reflexivity.
  - reflexivity.
  - reflexivity.
  - reflexivity.
  - vm_compute. reflexivity.
Defined.

(** X12.  A load answered with a status outside 200..299 is dropped without
    a trace: the list is kept, both flags are cleared, and nothing is
    logged or shown; the run is the lookup and the request only. *)
Theorem rejected_load_is_silent pf w s r res :
  auth_getSession w = inr r ->
  fetch w (feed_request r) = inr res ->
  ok res = false ->
  fetchFriendsReviews pf w s
  = (Normal tt,
     {| reviews := reviews s; loading := false; refreshing := false |},
     [getSession_call; fetch_call (feed_request r)]).
Proof.
  intros A Q K. rewrite (load_answered pf w s r res A Q), K. reflexivity.
Qed.

Lemma rejected_load_is_silent_witness :
  trace_of
    (fetchFriendsReviews Samples.platform
       (Samples.world_answering Samples.signed_out
          (Samples.response 401 "Unauthorized" (lit "no token")))
       Samples.feed_shown)
  = [ getSession_call;
      fetch_call (feed_request {| data_session := None; error := None |}) ].
Proof.
  rewrite (rejected_load_is_silent Samples.platform
             (Samples.world_answering Samples.signed_out
                (Samples.response 401 "Unauthorized" (lit "no token")))
             Samples.feed_shown
             {| data_session := None; error := None |}
             (Samples.response 401 "Unauthorized" (lit "no token"))).
  - reflexivity.
  - reflexivity.
  - reflexivity.
  - reflexivity.
Defined.

(** X13.  What a load logs: when the lookup rejects, the request rejects,
    or a success body is not JSON, the thrown value is logged once by
    [console.error] under the label of the feed, the list is kept and the
    handler completes normally; a rejected lookup makes no request. *)
Theorem thrown_load_is_logged pf w s :
  (forall e, auth_getSession w = inl e ->
     fetchFriendsReviews pf w s
     = (Normal tt,
        {| reviews := reviews s; loading := false; refreshing := false |},
        [getSession_call; console_error (lit "Error fetching feed:") e])) /\
  (forall r e, auth_getSession w = inr r ->
     fetch w (feed_request r) = inl e ->
     fetchFriendsReviews pf w s
     = (Normal tt,
        {| reviews := reviews s; loading := false; refreshing := false |},
        [ getSession_call; fetch_call (feed_request r);
          console_error (lit "Error fetching feed:") e ])) /\
  (forall r res, auth_getSession w = inr r ->
     fetch w (feed_request r) = inr res ->
     ok res = true -> parse (bodyText res) = None ->
     fetchFriendsReviews pf w s
     = (Normal tt,
        {| reviews := reviews s; loading := false; refreshing := false |},
        [ getSession_call; fetch_call (feed_request r);
          console_error (lit "Error fetching feed:")
            (JSError (SyntaxError_message pf (bodyText res))) ])).
Proof.
  split; [|split].
  - intros e A. apply load_lookup_rejected. exact A.
  - intros r e A Q. apply load_request_rejected; assumption.
  - intros r res A Q K P.
    rewrite (load_answered pf w s r res A Q), K, P. reflexivity.
Qed.

(** X14.  Unlike the form, the feed does not need a session: whenever the
    lookup resolves, with or without a session and whatever error it
    reports, the load makes exactly one request, a GET of the feed, whose
    Authorization header is Bearer followed by the token, or by the word
    undefined when there is no session. *)
Theorem feed_requested_without_session pf w s r :
  auth_getSession w = inr r ->
  filter is_fetch_call (trace_of (fetchFriendsReviews pf w s))
  = [fetch_call (feed_request r)] /\
  req_method (feed_request r) = lit "GET" /\
  req_body (feed_request r) = None /\
  (data_session r = None ->
   req_headers (feed_request r)
   = [(lit "Authorization", lit "Bearer undefined")]) /\
  (forall session, data_session r = Some session ->
   req_headers (feed_request r)
   = [(lit "Authorization", lit "Bearer " ++ access_token session)]).
Proof.
  intro A. split.
  - destruct (fetch w (feed_request r)) as [e|res] eqn:Q.
    + rewrite (load_request_rejected pf w s r e A Q). reflexivity.
    + rewrite (load_answered pf w s r res A Q).
      destruct (ok res); [destruct (parse (bodyText res))|]; reflexivity.
  - unfold feed_request. simpl. repeat split.
    + intro D. rewrite D. reflexivity.
    + intros session D. rewrite D. reflexivity.
Qed.

Lemma feed_requested_without_session_witness :
  filter is_fetch_call
    (trace_of
       (fetchFriendsReviews Samples.platform
          (Samples.world_offline Samples.signed_out) HomeTab.initial))
  = [fetch_call (feed_request {| data_session := None; error := None |})].
Proof.
  destruct (feed_requested_without_session Samples.platform
              (Samples.world_offline Samples.signed_out) HomeTab.initial
              {| data_session := None; error := None |})
    as [H _].
  - reflexivity.
  - exact H.
Defined.

(** X15.  A pull-to-refresh ends exactly as a load from the same state
    does, with the same events, and neither handler ever completes by
    throwing. *)
Theorem refresh_is_a_load pf w s :
  state_of (onRefresh pf w s) = state_of (fetchFriendsReviews pf w s) /\
  trace_of (onRefresh pf w s) = trace_of (fetchFriendsReviews pf w s) /\
  (forall e, completion_of (onRefresh pf w s) <> Throw e) /\
  (forall e, completion_of (fetchFriendsReviews pf w s) <> Throw e).
Proof.
  unfold state_of, trace_of, completion_of.
  all_paths; repeat split; intros e0 H0; discriminate.
Qed.

(** The code's quotient is the ceiling of the elapsed days. *)
Lemma ceil_div_is_ceiling (now createdAt : Z) :
  elapsed_days_ceiling now createdAt
    (ceil_div (Z.abs (now - createdAt)) (1000 * 60 * 60 * 24)).
Proof.
  unfold elapsed_days_ceiling, ceil_div, day_ms.
  change (1000 * 60 * 60 * 24)%Z with 86400000%Z.
  pose proof (Z.mul_div_le (- Z.abs (now - createdAt)) 86400000).
  pose proof (Z.mul_succ_div_gt (- Z.abs (now - createdAt)) 86400000).
  lia.
Qed.

(** X16.  Edges of the date label.  A date text that does not parse is
    labelled Invalid Date.  Any createdAt other than now and at most one
    day away, before or after now, is labelled Yesterday, so a review one
    millisecond old is; and anything more than six days away, even by a
    millisecond, gets the localized date, so the label never reads 7 days
    ago. *)
Theorem formatDate_edges pf w dateString :
  (Date_parse pf dateString = None ->
   formatDate pf w dateString = lit "Invalid Date") /\
  (forall createdAt,
      Date_parse pf dateString = Some createdAt ->
      (0 < Z.abs (Date_now w - createdAt) <= day_ms)%Z ->
      formatDate pf w dateString = lit "Yesterday") /\
  (forall createdAt,
      Date_parse pf dateString = Some createdAt ->
      (6 * day_ms < Z.abs (Date_now w - createdAt))%Z ->
      formatDate pf w dateString = toLocaleDateString pf createdAt).
Proof.
  split; [|split].
  - intro P. unfold formatDate. rewrite P. reflexivity.
  - intros createdAt P H. unfold formatDate. rewrite P. cbv zeta.
    rewrite (ceil_div_elapsed (Date_now w) createdAt 1)
      by (unfold elapsed_days_ceiling; lia).
    reflexivity.
  - intros createdAt P H. unfold formatDate. rewrite P. cbv zeta.
    pose proof (ceil_div_is_ceiling (Date_now w) createdAt) as C.
    unfold elapsed_days_ceiling, day_ms in C, H.
    remember (ceil_div (Z.abs (Date_now w - createdAt))
                (1000 * 60 * 60 * 24)) as N.
    destruct (Z.eqb_spec N 0); [lia|]. destruct (Z.eqb_spec N 1); [lia|].
    destruct (Z.ltb_spec N 7); [lia | reflexivity].
Qed.

Lemma formatDate_edges_witness :
  formatDate Samples.platform (Samples.world_at 1767225600001)
    (lit "2026-01-01T00:00:00.000Z") = lit "Yesterday".
Proof.
  destruct (formatDate_edges Samples.platform
              (Samples.world_at 1767225600001)
              (lit "2026-01-01T00:00:00.000Z")) as [_ [H _]].
  apply (H 1767225600000%Z).
  - reflexivity.
  - unfold day_ms. simpl. lia.
Defined.

(** X17.  The star row of a feed card always shows five icons, the filled
    ones first; for an integer rating their number is the rating, taken as
    0 below 0 and as 5 above 5. *)
Theorem renderRating_filled rating :
  renderRating rating
  = repeat star (Z.to_nat (Z.min 5 (Z.max 0 rating)))
    ++ repeat star_outline (5 - Z.to_nat (Z.min 5 (Z.max 0 rating))).
Proof.
  assert (C : (rating <= 0 \/ rating = 1 \/ rating = 2 \/ rating = 3
               \/ rating = 4 \/ 5 <= rating)%Z) by lia.
  destruct C as [C|[C|[C|[C|[C|C]]]]]; try (subst; reflexivity).
  - rewrite Z.max_l, Z.min_r by lia. unfold renderRating. simpl.
    repeat match goal with
    | |- context [(?a <? rating)%Z] =>
        destruct (Z.ltb_spec a rating); [lia|]
    end. reflexivity.
  - rewrite Z.max_r, Z.min_l by lia. unfold renderRating. simpl.
    repeat match goal with
    | |- context [(?a <? rating)%Z] =>
        destruct (Z.ltb_spec a rating); [|lia]
    end. reflexivity.
Qed.

(** X18.  The items block of a card accounts for every item: it is absent
    when the review has no items; otherwise it shows the first items as
    chips, at most three and in order, and the text after them is there
    exactly when items are left over and counts exactly those. *)
Theorem itemsBlock_accounts r :
  (items r = None \/ items r = Some [] <-> itemsBlock r = None) /\
  (forall l, items r = Some l -> l <> [] ->
     exists chips more,
       itemsBlock r = Some (chips, more) /\
       List.length chips <= 3 /\
       chips ++ skipn 3 l = l /\
       (skipn 3 l = [] -> more = None) /\
       (skipn 3 l <> [] ->
        more = Some (more_items_text (Z.of_nat (List.length (skipn 3 l)))))).
Proof.
  unfold itemsBlock. split.
  - split.
    + intros [H|H]; rewrite H; reflexivity.
    + destruct (items r) as [[|d l]|];
        [right; reflexivity | intro H; simpl in H; discriminate
        | left; reflexivity].
  - intros l E N. rewrite E.
    destruct l as [|d l]; [congruence|]. simpl Nat.ltb.
    cbv iota. eexists. eexists. split; [reflexivity|].
    split; [rewrite length_firstn; lia|].
    split; [apply firstn_skipn|].
    change (S (List.length l)) with (List.length (d :: l)).
    generalize (d :: l). intro l0.
    pose proof (length_skipn 3 l0) as K.
    destruct (Nat.ltb_spec 3 (List.length l0)) as [G|G]; split.
    + intro Z0. rewrite Z0 in K. simpl in K. lia.
    + intros _. rewrite K. do 2 f_equal. lia.
    + reflexivity.
    + intro Z0. exfalso. apply Z0. apply length_zero_iff_nil. lia.
Qed.

(** X19.  The photo block of a card accounts for every photo: it is absent
    when the review has no photos; otherwise it shows the first photo, and
    the badge is there exactly when there are others and counts exactly
    those. *)
Theorem photoBlock_accounts r :
  (photoUrls r = None \/ photoUrls r = Some [] <-> photoBlock r = None) /\
  (forall lead others, photoUrls r = Some (lead :: others) ->
     photoBlock r
     = Some (lead,
             match others with
             | [] => None
             | _ :: _ =>
                 Some (more_photos_text (Z.of_nat (List.length others)))
             end)).
Proof.
  unfold photoBlock. split.
  - split.
    + intros [H|H]; rewrite H; reflexivity.
    + destruct (photoUrls r) as [[|d l]|];
        [right; reflexivity | intro H; simpl in H; discriminate
        | left; reflexivity].
  - intros lead others E. rewrite E.
    destruct others as [|o others]; [reflexivity|].
    assert (K : (Z.of_nat (List.length (lead :: o :: others)) - 1
                 = Z.of_nat (List.length (o :: others)))%Z)
      by (change (List.length (lead :: o :: others))
            with (S (List.length (o :: others))); lia).
    change (Some (lead,
                  Some (more_photos_text
                          (Z.of_nat (List.length (lead :: o :: others)) - 1)))
            = Some (lead,
                    Some (more_photos_text
                            (Z.of_nat (List.length (o :: others)))))).
    rewrite K. reflexivity.
Qed.

End FeedFacts.
